(** * Tuture CLI: Git interaction layer and step synchronizer

    A shallow embedding of [lib/git.js] and [lib/utils.js].  JavaScript
    strings are [string]s whose characters stand for code units below 256;
    arrays are lists; asynchronous functions are functions into a result
    type, with [await] read as sequencing; the file system and the host
    (the Git executable, the prompt, the platform) are explicit. *)

From Stdlib Require Import String Ascii List ZArith Lia Bool.
From stdpp Require Import base list strings.
Import ListNotations.
Local Open Scope string_scope.
Local Open Scope list_scope.

(** ** JavaScript string and path primitives used by the sources *)

Module Js.

Definition LF : ascii := "010"%char.
Definition nl : string := String LF EmptyString.

(** [s.startsWith(p)] *)
Definition startsWith (s p : string) : bool := String.prefix p s.

(** [s.slice(a, b)] for [0 <= a]; both ends are clamped to the length. *)
Definition slice (a b : nat) (s : string) : string := substring a (b - a) s.

(** [s.includes(sub)] *)
Fixpoint includes (sub s : string) : bool :=
  String.prefix sub s
  || match s with
     | EmptyString => false
     | String _ s' => includes sub s'
     end.

(** [s.replace(pat, repl)] with a string pattern: only the first
    occurrence is replaced.  ([repl] is taken literally; the sources only
    pass the empty string.) *)
Fixpoint replace (pat repl s : string) : string :=
  if String.prefix pat s
  then repl +:+ slice (String.length pat) (String.length s) s
  else match s with
       | EmptyString => EmptyString
       | String c s' => String c (replace pat repl s')
       end.

(** [s.split(sep)] for a non-empty separator: scan from the left, cut at
    each occurrence and resume after it.  [skip] counts the characters of
    a separator that are still to be passed over. *)
Fixpoint split_go (sep : string) (skip : nat) (cur s : string) : list string :=
  match s with
  | EmptyString => [cur]
  | String c s' =>
      match skip with
      | S k => split_go sep k cur s'
      | O =>
          if String.prefix sep s
          then cur :: split_go sep (String.length sep - 1) EmptyString s'
          else split_go sep 0 (cur +:+ String c EmptyString) s'
      end
  end.

Definition split (sep s : string) : list string := split_go sep 0 EmptyString s.

(** White space in the sense of [String.prototype.trim], below 256. *)
Definition is_ws (c : ascii) : bool :=
  match N_of_ascii c with
  | 9%N | 10%N | 11%N | 12%N | 13%N | 32%N | 160%N => true
  | _ => false
  end.

Fixpoint trimStart (s : string) : string :=
  match s with
  | EmptyString => EmptyString
  | String c s' => if is_ws c then trimStart s' else s
  end.

Fixpoint trimEnd (s : string) : string :=
  match s with
  | EmptyString => EmptyString
  | String c s' =>
      match trimEnd s' with
      | EmptyString => if is_ws c then EmptyString else String c EmptyString
      | t => String c t
      end
  end.

(** [s.trim()] *)
Definition trim (s : string) : string := trimEnd (trimStart s).

(** [arr.slice(-1)[0]]: the last element; [undefined] on an empty array is
    rendered as the empty string (the arrays it is applied to, results of
    [split], are never empty). *)
Definition lastElement (arr : list string) : string := List.last arr EmptyString.

(** [arr.slice(0, arr.length - 1)] *)
Definition dropLast {A} (arr : list A) : list A := take (length arr - 1) arr.

(** POSIX [path.basename(p)]: trailing separators are ignored, then the
    portion after the last separator is returned. *)
Fixpoint dropSlashes (cs : list ascii) : list ascii :=
  match cs with
  | c :: cs' => if Ascii.eqb c "/" then dropSlashes cs' else cs
  | [] => []
  end.

Fixpoint untilSlash (cs : list ascii) : list ascii :=
  match cs with
  | c :: cs' => if Ascii.eqb c "/" then [] else c :: untilSlash cs'
  | [] => []
  end.

Definition basename (p : string) : string :=
  string_of_list_ascii
    (rev (untilSlash (dropSlashes (rev (list_ascii_of_string p))))).

End Js.

(** ** Data model *)

(** An entry of a step's [diff] list.  [getGitDiff] creates objects with
    the single key [file]; the other keys ([explain], here [file_explain],
    and [collapse]) are written by the user. *)
Record FileDiff := mkFileDiff {
  file : string;
  file_explain : option string;
  collapse : option bool
}.

(** A step of the tutorial.  [explain] is absent on a freshly made step. *)
Record Step := mkStep {
  name : string;
  commit : string;
  explain : option string;
  diff : list FileDiff
}.

(** The answers of [promptMetaData] ([name] is [title] here); the default
    values have no topics and no email. *)
Record Meta := mkMeta {
  title : string;
  version : string;
  language : string;
  topics : option (list string);
  email : option string
}.

(** The object stored in [tuture.yml] and [.tuture/tuture.json]. *)
Record Tuture := mkTuture {
  meta : Meta;
  steps : list Step
}.

(** What [gitdiff-parser] returns, as far as [parseDiff] looks into it. *)
Record Hunk := mkHunk {
  hunkContent : string;
  isPlain : option bool
}.

Record DiffFile := mkDiffFile {
  fileHeader : string;
  hunks : list Hunk
}.

(** An entry of [.tuture/diff.json]. *)
Record CommitDiff := mkCommitDiff {
  diffCommit : string;
  diffFiles : list DiffFile
}.

(** ** The host *)

(** The outcome of a child process: the exit code ([None] when the process
    was ended by a signal) and the two captured streams. *)
Record ProcResult := mkProc {
  exitCode : option Z;
  stdout : string;
  stderr : string
}.

(** The calls into [fs] that can throw. *)
Inductive IoCall :=
| MkdirRoot
| WriteTutureJson
| WriteTutureYml
| ReadTutureYml
| WriteGitignore
| ReadGitignore
| AppendGitignore
| WriteHook
| ReadHook
| AppendHook
| RemoveHook
| RemoveTutureYml
| RemoveRoot
| WriteDiffJson.

(** A settled promise, or the result of a call that may throw. *)
Inductive Result (A : Type) :=
| Ok (a : A)
| Err (message : string).

Arguments Ok {A} a.
Arguments Err {A} message.

(** Everything the program takes from outside its two modules:
    [./config] ([ignoreFiles]), the libraries [minimatch] and
    [gitdiff-parser] (whose [parse] may throw), [__dirname] and
    [process.platform], the Git executable, the answers typed at the prompts
    and the failures of the file system. *)
Record Env := mkEnv {
  ignoreFiles : list string;
  minimatch : string -> string -> bool;
  parse : string -> Result (list DiffFile);
  binTuture : string;
  win32 : bool;
  gitInstalled : bool;
  git : list string -> ProcResult;
  confirmInit : option bool;
  confirmDestroy : option bool;
  metaAnswers : option Meta;
  ioError : IoCall -> option string
}.

(** [Promise.all] over promises that are already settled: the results in
    the order of the array, or a rejection when one of them rejected.  (When
    several reject, the program sees the one that rejected first in time;
    the model takes the first in the array.) *)
Fixpoint promiseAll {A} (ps : list (Result A)) : Result (list A) :=
  match ps with
  | [] => Ok []
  | Ok a :: ps' =>
      match promiseAll ps' with
      | Ok l => Ok (a :: l)
      | Err m => Err m
      end
  | Err m :: _ => Err m
  end.

(** ** lib/git.js *)

Definition isGitAvailable (e : Env) : bool := gitInstalled e.

Definition runGitCommand (e : Env) (args : list string) : Result string :=
  match exitCode (git e args) with
  | Some 0%Z => Ok (stdout (git e args))
  | _ => Err (stderr (git e args))
  end.

Definition getGitLogs (e : Env) : list string :=
  match runGitCommand e ["log"; "--oneline"; "--no-merges"] with
  | Ok output => Js.split Js.nl (Js.trim output)
  | Err _ => []
  end.

Definition parseDiff (e : Env) (diffText : string) : Result (list DiffFile) :=
  match parse e diffText with
  | Ok files =>
      Ok (map (fun f =>
                 mkDiffFile (fileHeader f)
                   (map (fun hunk => mkHunk (hunkContent hunk) (Some false)) (hunks f)))
              files)
  | Err m => Err m
  end.

(** The test of the filter in [getGitDiff]: is the file ignored? *)
Definition ignored (e : Env) (f : string) : bool :=
  existsb (fun pattern => minimatch e (Js.basename f) pattern) (ignoreFiles e).

(** The synchronous part of [getGitDiff], from the output of the command. *)
Definition changedFilesOf (e : Env) (output : string) : list FileDiff :=
  let changedFiles :=
    Js.split Js.nl (Js.lastElement (Js.split (Js.nl +:+ Js.nl) output)) in
  let changedFiles := Js.dropLast changedFiles in
  map (fun f => mkFileDiff f None None)
      (List.filter (fun f => negb (ignored e f)) changedFiles).

Definition getGitDiff (e : Env) (commit : string) : Result (list FileDiff) :=
  match runGitCommand e ["show"; commit; "--name-only"] with
  | Ok output => Ok (changedFilesOf e output)
  | Err m => Err m
  end.

(** One of the promises [storeDiff] creates: it rejects when the command
    fails and when [parseDiff] throws. *)
Definition fetchFullDiff (e : Env) (commit : string) : Result CommitDiff :=
  match runGitCommand e ["show"; commit] with
  | Ok output =>
      let diffText := Js.lastElement (Js.split (Js.nl +:+ Js.nl) output) in
      match parseDiff e diffText with
      | Ok diff => Ok (mkCommitDiff commit diff)
      | Err m => Err m
      end
  | Err m => Err m
  end.

Definition replaceBackslashes (s : string) : string :=
  string_of_list_ascii
    (map (fun c => if Ascii.eqb c "092" then "/"%char else c) (list_ascii_of_string s)).

Definition getGitHook (e : Env) : string :=
  let tuturePath := binTuture e in
  let tuturePath := if win32 e then replaceBackslashes tuturePath else tuturePath in
  "#!/bin/sh" +:+ Js.nl +:+ tuturePath +:+ " reload" +:+ Js.nl.

(** ** The file system and the process *)

(** The content of [tuture.yml]: text that [yaml.safeLoad] turns into a
    tutorial ([yaml.safeDump] writes such text), or a file on which reading
    or parsing throws. *)
Inductive YmlFile :=
| Yml (t : Tuture)
| Unreadable (message : string).

(** The support directory [.tuture] ([tutureRoot]) and its two files. *)
Record SupportDir := mkSupportDir {
  tutureJson : option Tuture;
  diffJson : option (list CommitDiff)
}.

(** The paths the program touches, relative to the working directory. *)
Record FS := mkFS {
  tutureYml : option YmlFile;
  tutureRoot : option SupportDir;
  gitignore : option string;
  dotGit : bool;
  postCommit : option string
}.

(** A promise nobody awaits, with the callback [storeDiff] attached to it:
    [fetched] is what [Promise.all(diffPromises)] settles to, [writeError]
    what [fs.writeFileSync] throws inside the callback when the host makes
    the write of [diff.json] fail. *)
Record Pending := mkPending {
  fetched : Result (list CommitDiff);
  writeError : option string
}.

(** The state of a run: the files, and the promises nobody awaits.  A
    promise created by [storeDiff] settles on its own; its continuation
    runs when the event loop gets to it, and its rejection reaches no
    caller. *)
Record World := mkWorld {
  fs : FS;
  detached : list Pending
}.

(** How a call ends: it returns, the process is ended by [process.exit]
    after [signale] has shown a message, or an exception is thrown (an
    [async] function then returns a rejected promise). *)
Inductive Res (A : Type) :=
| Ret (a : A)
| Exit (code : Z) (shown : string)
| Throw (message : string).

Arguments Ret {A} a.
Arguments Exit {A} code shown.
Arguments Throw {A} message.

Definition M (A : Type) : Type := World -> Res A * World.

Definition ret {A} (a : A) : M A := fun w => (Ret a, w).

Definition bind {A B} (m : M A) (k : A -> M B) : M B :=
  fun w =>
    match m w with
    | (Ret a, w') => k a w'
    | (Exit c s, w') => (Exit c s, w')
    | (Throw x, w') => (Throw x, w')
    end.

Notation "'do' x <- c ; k" := (bind c (fun x => k))
  (at level 10, x name, c at level 99, k at level 200).
Notation "c ;; k" := (bind c (fun _ => k))
  (at level 100, k at level 200, right associativity).

Definition throw {A} (message : string) : M A := fun w => (Throw message, w).

Definition exit {A} (code : Z) (shown : string) : M A := fun w => (Exit code shown, w).

(** [try { body } catch (err) { handler(err.message) }]: [process.exit]
    inside [body] is not an exception. *)
Definition tryCatch {A} (body : M A) (handler : string -> M A) : M A :=
  fun w =>
    match body w with
    | (Throw x, w') => handler x w'
    | r => r
    end.

(** [await p] for a settled promise [p]. *)
Definition await {A} (p : Result A) : M A :=
  match p with
  | Ok a => ret a
  | Err m => throw m
  end.

Definition when (b : bool) (m : M unit) : M unit := if b then m else ret tt.

Definition getFS : M FS := fun w => (Ret (fs w), w).

Definition setFS (f : FS -> FS) : M unit :=
  fun w => (Ret tt, mkWorld (f (fs w)) (detached w)).

(** A call into [fs] throws when the host says so. *)
Definition io (e : Env) (c : IoCall) : M unit :=
  match ioError e c with
  | Some m => throw m
  | None => ret tt
  end.

(** A promise is left behind without being awaited. *)
Definition detach (p : Pending) : M unit :=
  fun w => (Ret tt, mkWorld (fs w) (detached w ++ [p])).

Definition setTutureYml (y : option YmlFile) (f : FS) : FS :=
  mkFS y (tutureRoot f) (gitignore f) (dotGit f) (postCommit f).

Definition setTutureRoot (r : option SupportDir) (f : FS) : FS :=
  mkFS (tutureYml f) r (gitignore f) (dotGit f) (postCommit f).

Definition setGitignore (g : option string) (f : FS) : FS :=
  mkFS (tutureYml f) (tutureRoot f) g (dotGit f) (postCommit f).

Definition setDotGit (b : bool) (f : FS) : FS :=
  mkFS (tutureYml f) (tutureRoot f) (gitignore f) b (postCommit f).

Definition setPostCommit (h : option string) (f : FS) : FS :=
  mkFS (tutureYml f) (tutureRoot f) (gitignore f) (dotGit f) h.

(** [fs.writeFileSync(path.join(tutureRoot, name), ...)] needs the
    directory. *)
Definition writeInRoot (e : Env) (c : IoCall) (upd : SupportDir -> SupportDir) : M unit :=
  io e c ;;
  do f <- getFS;
  match tutureRoot f with
  | Some d => setFS (setTutureRoot (Some (upd d)))
  | None => throw "ENOENT: no such file or directory"
  end.

(** The continuation [storeDiff] attaches to its [Promise.all]: it runs
    when every fetch succeeded and writes [diff.json], for which the
    directory must be there and the write must not fail.  A rejection of
    [Promise.all], or an exception of the write, ends in a promise that has
    no handler; the run goes on all the same, as it does on Node up to
    version 14, where such a rejection is only reported. *)
Definition settleOne (p : Pending) (f : FS) : FS :=
  match fetched p, writeError p, tutureRoot f with
  | Ok diffs, None, Some d =>
      setTutureRoot (Some (mkSupportDir (tutureJson d) (Some diffs))) f
  | _, _, _ => f
  end.

(** The files once the event loop has run dry. *)
Definition settle (w : World) : FS := fold_left (fun f p => settleOne p f) (detached w) (fs w).

(** ** lib/git.js, the part that touches files *)

Definition initGit (e : Env) : M unit :=
  await (runGitCommand e ["init"]) ;;
  setFS (setDotGit true).

Definition storeDiff (e : Env) (commits : list string) : M unit :=
  let diffPromises := map (fetchFullDiff e) commits in
  detach (mkPending (promiseAll diffPromises) (ioError e WriteDiffJson)).

Definition appendGitHook (e : Env) : M unit :=
  let reloadHook := getGitHook e in
  do f <- getFS;
  match postCommit f with
  | None => io e WriteHook ;; setFS (setPostCommit (Some reloadHook))
  | Some hook =>
      io e ReadHook ;;
      when (negb (Js.includes "tuture reload" hook))
           (io e AppendHook ;; setFS (setPostCommit (Some (hook +:+ reloadHook))))
  end.

Definition removeGitHook (e : Env) : M unit :=
  let reloadHook := getGitHook e in
  do f <- getFS;
  match postCommit f with
  | Some hook =>
      io e ReadHook ;;
      if String.eqb hook reloadHook
      then io e RemoveHook ;; setFS (setPostCommit None)
      else io e WriteHook ;;
           setFS (setPostCommit (Some (Js.replace "tuture reload" "" hook)))
  | None => ret tt
  end.

(** ** lib/utils.js *)

Record Options := mkOptions {
  yes : bool;
  force : bool
}.

Definition ifTutureSuiteExists : M bool :=
  do f <- getFS;
  ret (bool_decide (is_Some (tutureRoot f)) && bool_decide (is_Some (tutureYml f))).

Definition removeTutureSuite (e : Env) : M unit :=
  io e RemoveTutureYml ;;
  setFS (setTutureYml None) ;;
  io e RemoveRoot ;;
  setFS (setTutureRoot None).

Definition errAndExit {A} (message : string) : M A :=
  exit 1 (Js.replace "fatal: " "" (Js.trim message)).

Definition defaultValues : Meta :=
  mkMeta "My Awesome Tutorial" "0.0.1" "en" None None.

(** The prompt is cancelled ([onCancel]) when the host gives no answer. *)
Definition promptMetaData (e : Env) (shouldPrompt : bool) : M Meta :=
  if shouldPrompt
  then match metaAnswers e with
       | Some answers => ret answers
       | None => errAndExit "Aborted!"
       end
  else ret defaultValues.

(** The lines [makeSteps] keeps, oldest first. *)
Definition keptLogs (logs : list string) : list string :=
  List.filter
    (fun log => negb (Js.startsWith (Js.slice 8 (String.length log) log) "tuture:"))
    (rev logs).

(** The promise made for one log line. *)
Definition makeStep (e : Env) (commits : list string) (idx : nat) (log : string)
  : Result Step :=
  let msg := Js.slice 8 (String.length log) log in
  let c := nth idx commits EmptyString in
  match getGitDiff e c with
  | Ok d => Ok (mkStep msg c None d)
  | Err m => Err m
  end.

Definition makeSteps (e : Env) : M (list (Result Step)) :=
  let logs := getGitLogs e in
  let logs := keptLogs logs in
  let commits := map (fun log => Js.slice 0 7 log) logs in
  storeDiff e commits ;;
  ret (imap (makeStep e commits) logs).

Definition getSteps (e : Env) : M (list Step) :=
  do resArr <- makeSteps e;
  await (promiseAll resArr).

Definition writeTuture (e : Env) (tuture : Tuture) : M unit :=
  writeInRoot e WriteTutureJson (fun d => mkSupportDir (Some tuture) (diffJson d)) ;;
  io e WriteTutureYml ;;
  setFS (setTutureYml (Some (Yml tuture))).

Definition appendGitignore (e : Env) : M unit :=
  let ignoreRules :=
    "# Tuture supporting files" +:+ Js.nl +:+ Js.nl +:+ ".tuture" +:+ Js.nl in
  do f <- getFS;
  match gitignore f with
  | None => io e WriteGitignore ;; setFS (setGitignore (Some ignoreRules))
  | Some content =>
      io e ReadGitignore ;;
      when (negb (Js.includes ".tuture" content))
           (io e AppendGitignore ;;
            setFS (setGitignore (Some (content +:+ Js.nl +:+ ignoreRules))))
  end.

(** A confirmation prompt: the answer, or [onCancel]. *)
Definition confirm (answer : option bool) : M bool :=
  match answer with
  | Some a => ret a
  | None => errAndExit "Aborted!"
  end.

Definition initTuture (e : Env) (options : Options) : M unit :=
  do suite <- ifTutureSuiteExists;
  when suite (exit 0 "Tuture has already been initialized!") ;;
  when (negb (isGitAvailable e)) (errAndExit "Git is not installed on your machine!") ;;
  do f <- getFS;
  when (negb (dotGit f))
       (do answer <- (if yes options then ret true else confirm (confirmInit e));
        if negb answer then errAndExit "Aborted!" else initGit e) ;;
  do answers <- promptMetaData e (negb (yes options));
  io e MkdirRoot ;;
  do f <- getFS;
  when (bool_decide (is_Some (tutureRoot f))) (throw "EEXIST: file already exists") ;;
  setFS (setTutureRoot (Some (mkSupportDir None None))) ;;
  tryCatch
    (do newSteps <- getSteps e;
     writeTuture e (mkTuture answers newSteps) ;;
     appendGitignore e ;;
     appendGitHook e)
    (fun message => removeTutureSuite e ;; errAndExit message).

(** [yaml.safeLoad(fs.readFileSync('tuture.yml'), 'utf8')] *)
Definition loadTuture (e : Env) : M Tuture :=
  io e ReadTutureYml ;;
  do f <- getFS;
  match tutureYml f with
  | Some (Yml t) => ret t
  | Some (Unreadable m) => throw m
  | None => throw "ENOENT: no such file or directory"
  end.

(** The inner [forEach] of [reloadTuture], for one [currentStep]. *)
Definition reconcileAt (oldSteps : list Step) (index : nat) (currentStep : Step)
    (currentSteps : list Step) : list Step :=
  fold_left
    (fun arr step =>
       if String.eqb (commit currentStep) (commit step)
       then <[index := step]> arr
       else arr)
    oldSteps currentSteps.

(** The outer [forEach]: the indices below the length the array had at the
    start, each element read when its index is reached. *)
Fixpoint forEachStep (n index : nat) (oldSteps currentSteps : list Step) : list Step :=
  match n with
  | O => currentSteps
  | S n' =>
      match currentSteps !! index with
      | Some currentStep =>
          forEachStep n' (S index) oldSteps
            (reconcileAt oldSteps index currentStep currentSteps)
      | None => forEachStep n' (S index) oldSteps currentSteps
      end
  end.

Definition reconcile (oldSteps currentSteps : list Step) : list Step :=
  forEachStep (length currentSteps) 0 oldSteps currentSteps.

Definition reloadTuture (e : Env) : M unit :=
  do suite <- ifTutureSuiteExists;
  when (negb suite) (errAndExit "Tuture has not been initialized!") ;;
  when (negb (isGitAvailable e)) (errAndExit "Git is not installed on your machine!") ;;
  do tuture <- tryCatch (loadTuture e) (fun message => errAndExit message);
  do currentSteps <- getSteps e;
  let currentSteps := reconcile (steps tuture) currentSteps in
  writeTuture e (mkTuture (meta tuture) currentSteps).

Definition destroyTuture (e : Env) (options : Options) : M unit :=
  do suite <- ifTutureSuiteExists;
  when (negb suite) (errAndExit "No Tuture tutorial to destroy!") ;;
  do answer <- (if force options then ret true else confirm (confirmDestroy e));
  when (negb answer) (errAndExit "Aborted!") ;;
  removeGitHook e ;;
  removeTutureSuite e.

(** [tuture up].  [cp.execSync('tuture-renderer')] runs a program from
    outside the two modules: [renderer] is the message of the exception the
    call throws, if it throws. *)
Definition startRenderer (e : Env) (renderer : option string) : M unit :=
  do suite <- ifTutureSuiteExists;
  when (negb suite) (errAndExit "Tuture has not been initialized!") ;;
  do tuture <- loadTuture e;
  writeInRoot e WriteTutureJson (fun d => mkSupportDir (Some tuture) (diffJson d)) ;;
  tryCatch
    (match renderer with
     | Some message => throw message
     | None => ret tt
     end)
    (fun _ => errAndExit "tuture-renderer is not available!").

Definition handleUnknownCmd (cmd : string) : M unit :=
  errAndExit ("Unknown command: " +:+ cmd).

(** A command run as a process on the files [f]: how it ends, and the
    files it leaves once nothing is pending any more.  (Where the program
    calls [process.exit] after [storeDiff], the support directory is gone
    and a pending write of [diff.json] has nowhere to go, so that the files
    are the same whether or not the exit comes first.) *)
Definition run {A} (m : M A) (f : FS) : Res A * FS :=
  let r := m (mkWorld f []) in
  (r.1, settle r.2).

(** ** Vocabulary of the statements *)

Fixpoint noLF (s : string) : bool :=
  match s with
  | EmptyString => true
  | String c s' => negb (Ascii.eqb c Js.LF) && noLF s'
  end.

Fixpoint endsLF (s : string) : bool :=
  match s with
  | EmptyString => false
  | String c EmptyString => Ascii.eqb c Js.LF
  | String _ s' => endsLF s'
  end.

Fixpoint noWs (s : string) : bool :=
  match s with
  | EmptyString => true
  | String c s' => negb (Js.is_ws c) && noWs s'
  end.

(** Lines the way [git] prints them: each one followed by a line feed. *)
Definition unlines (ls : list string) : string :=
  fold_right (fun l acc => l +:+ Js.nl +:+ acc) EmptyString ls.

(** The blank line that ends a block of [git show]. *)
Definition blank : string := Js.nl +:+ Js.nl.

Definition isHexDigit (c : ascii) : bool :=
  match c with
  | "0" | "1" | "2" | "3" | "4" | "5" | "6" | "7" | "8" | "9"
  | "a" | "b" | "c" | "d" | "e" | "f" => true
  | _ => false
  end%char.

Fixpoint allHex (s : string) : bool :=
  match s with
  | EmptyString => true
  | String c s' => isHexDigit c && allHex s'
  end.

(** The abbreviated hash of [git log --oneline], at its default width. *)
Definition shortHash (h : string) : bool :=
  Nat.eqb (String.length h) 7 && allHex h.

(** A commit as [git log --oneline] shows it: the abbreviated hash and the
    subject line. *)
Record Commit := mkCommit {
  hash : string;
  subject : string
}.

Definition wellFormed (c : Commit) : bool := shortHash (hash c) && noLF (subject c).

(** The subject carries the reserved marker. *)
Definition reserved (c : Commit) : bool := Js.startsWith (subject c) "tuture:".

Definition oneline (c : Commit) : string := hash c +:+ " " +:+ subject c.

(** What [git log --oneline --no-merges] does on a history without merge
    commits, given newest first: it prints one line per commit, and fails
    on a repository that has no commit yet. *)
Definition gitLog (history : list Commit) : ProcResult :=
  match history with
  | [] => mkProc (Some 128%Z) ""
            "fatal: your current branch 'master' does not have any commits yet"
  | _ => mkProc (Some 0%Z) (unlines (map oneline history)) ""
  end.

(** The commit a log line is read as. *)
Definition parseLine (log : string) : Commit :=
  mkCommit (Js.slice 0 7 log) (Js.slice 8 (String.length log) log).

(** The history as the program sees it: [trim] takes the white space off
    the end of the output, that is, off the end of the oldest subject. *)
Definition logged (history : list Commit) : list Commit :=
  match rev history with
  | [] => []
  | c :: older => rev (mkCommit (hash c) (Js.trimEnd (subject c)) :: older)
  end.

(** The step of a commit, when its diff can be fetched. *)
Definition stepOf (e : Env) (c : Commit) : Result Step :=
  match getGitDiff e (hash c) with
  | Ok d => Ok (mkStep (subject c) (hash c) None d)
  | Err m => Err m
  end.

(** The commits that become steps, oldest first. *)
Definition keptCommits (history : list Commit) : list Commit :=
  List.filter (fun c => negb (reserved c)) (rev (logged history)).

(** The identifiers [makeSteps] computes (its [commits]). *)
Definition commitsOf (e : Env) : list string :=
  map (fun log => Js.slice 0 7 log) (keptLogs (getGitLogs e)).

(** What the promises of [makeSteps] settle to, taken together. *)
Definition freshSteps (e : Env) : Result (list Step) :=
  promiseAll (map (fun log => stepOf e (parseLine log)) (keptLogs (getGitLogs e))).

(** What the promise left behind by [storeDiff] settles to. *)
Definition fullDiffs (e : Env) : Result (list CommitDiff) :=
  promiseAll (map (fetchFullDiff e) (commitsOf e)).

(** What [storeDiff] leaves on the event loop in a run of [getSteps]. *)
Definition archive (e : Env) : Pending :=
  mkPending (fullDiffs e) (ioError e WriteDiffJson).

(** The last step of [oldSteps] that has the commit hash [h]. *)
Fixpoint lastMatch (h : string) (oldSteps : list Step) : option Step :=
  match oldSteps with
  | [] => None
  | s :: rest =>
      match lastMatch h rest with
      | Some s' => Some s'
      | None => if String.eqb h (commit s) then Some s else None
      end
  end.

(** The step that stands at the place of [currentStep] after the merge. *)
Definition merged (oldSteps : list Step) (currentStep : Step) : Step :=
  default currentStep (lastMatch (commit currentStep) oldSteps).

(** What [errAndExit] shows for a message. *)
Definition fatal (message : string) : string :=
  Js.replace "fatal: " "" (Js.trim message).

(** The tutorial [reloadTuture] writes, from the one it read and the new
    steps. *)
Definition reloaded (t : Tuture) (newSteps : list Step) : Tuture :=
  mkTuture (meta t) (reconcile (steps t) newSteps).

(** [initTuture] up to the creation of the support directory: the checks,
    the prompts and [fs.mkdirSync(tutureRoot)]. *)
Definition initPrelude (e : Env) (options : Options) : M Meta :=
  do suite <- ifTutureSuiteExists;
  when suite (exit 0 "Tuture has already been initialized!") ;;
  when (negb (isGitAvailable e)) (errAndExit "Git is not installed on your machine!") ;;
  do f <- getFS;
  when (negb (dotGit f))
       (do answer <- (if yes options then ret true else confirm (confirmInit e));
        if negb answer then errAndExit "Aborted!" else initGit e) ;;
  do answers <- promptMetaData e (negb (yes options));
  io e MkdirRoot ;;
  do f <- getFS;
  when (bool_decide (is_Some (tutureRoot f))) (throw "EEXIST: file already exists") ;;
  setFS (setTutureRoot (Some (mkSupportDir None None))) ;;
  ret answers.

(** The steps of [initTuture] inside its [try]. *)
Definition initBlock (e : Env) (answers : Meta) : M unit :=
  do newSteps <- getSteps e;
  writeTuture e (mkTuture answers newSteps) ;;
  appendGitignore e ;;
  appendGitHook e.

(** Its [catch]. *)
Definition initRollback (e : Env) (message : string) : M unit :=
  removeTutureSuite e ;; errAndExit message.

(** The arguments [getGitDiff] passes to Git, and the step made for a
    commit whose summary was fetched. *)
Definition showNames (c : string) : list string := ["show"; c; "--name-only"].


(** The rule [appendGitignore] writes, and the content of [.gitignore]
    after it. *)
Definition ignoreRules : string :=
  "# Tuture supporting files" +:+ Js.nl +:+ Js.nl +:+ ".tuture" +:+ Js.nl.

Definition gitignoreAfter (before : option string) : string :=
  match before with
  | None => ignoreRules
  | Some content =>
      if Js.includes ".tuture" content then content
      else content +:+ Js.nl +:+ ignoreRules
  end.

(** The content of the post-commit hook after [appendGitHook]. *)
Definition hookAfter (e : Env) (before : option string) : string :=
  match before with
  | None => getGitHook e
  | Some hook =>
      if Js.includes "tuture reload" hook then hook
      else hook +:+ getGitHook e
  end.

(** The answers [initTuture] gets from [promptMetaData]. *)
Definition answersOf (e : Env) (options : Options) : option Meta :=
  if yes options then Some defaultValues else metaAnswers e.

(** ** A sample repository *)

Module Sample.

(** Newest first, as [git log] lists them. *)
Definition history : list Commit :=
  [mkCommit "c3c3c3c" "fix: bug";
   mkCommit "b2b2b2b" "tuture: housekeeping";
   mkCommit "a1a1a1a" "feat: add x"].



Definition header (c : string) : string :=
  "commit " +:+ c +:+ Js.nl +:+ "Author: A U Thor" +:+ Js.nl +:+ Js.nl +:+ "    subject".

Definition changed : list string := ["src/index.js"; "yarn.lock"].

Definition succeeded (output : string) : ProcResult := mkProc (Some 0%Z) output "".

Definition failed (message : string) : ProcResult := mkProc (Some 128%Z) "" message.

(** A Git that knows [log], [show] and [init]; [fullDiff] is the outcome
    of [git show <commit>]. *)
Definition gitOn (commits : list Commit) (fullDiff : string -> ProcResult)
    (args : list string) : ProcResult :=
  match args with
  | [a] => if (a =? "init")%string then succeeded "" else failed "fatal: unknown"
  | [a; b] => if (a =? "show")%string then fullDiff b else failed "fatal: unknown"
  | [a; b; c] =>
      if (a =? "log")%string then gitLog commits
      else if (a =? "show")%string
           then succeeded (header b +:+ blank +:+ unlines changed)
           else failed "fatal: unknown"
  | _ => failed "fatal: unknown"
  end.

(** The patch [git show] prints for a commit of the sample, and what
    [gitdiff-parser] makes of a text: one file with one hunk for the patch,
    nothing for an empty text, an exception for a text that is no patch. *)
Definition patch : string :=
  unlines ["diff --git a/src/index.js b/src/index.js";
           "index e69de29..4d0a3c5 100644";
           "--- a/src/index.js";
           "+++ b/src/index.js";
           "@@ -0,0 +1 @@";
           "+module.exports = 1;"].

Definition parser (text : string) : Result (list DiffFile) :=
  if Js.startsWith text "diff --git"
  then Ok [mkDiffFile "src/index.js" [mkHunk "@@ -0,0 +1 @@" None]]
  else if (text =? "")%string then Ok []
       else Err "Cannot read property 'changes' of undefined".

Definition diffOf (c : string) : ProcResult :=
  succeeded (header c +:+ blank +:+ patch).

(** On patterns that have no glob character, [minimatch] compares the
    path with the pattern. *)
Definition literal (path pattern : string) : bool := (path =? pattern)%string.

Definition noError (c : IoCall) : option string := None.

Definition envOn (commits : list Commit) : Env :=
  mkEnv ["yarn.lock"; ".gitignore"] literal parser
        "/usr/local/lib/node_modules/tuture/bin/tuture" false true
        (gitOn commits diffOf) (Some true) (Some true) (Some defaultValues) noError.

Definition env : Env := envOn history.


(** The same host with an ignore pattern that names a path. *)
Definition pathEnv : Env :=
  mkEnv ["build/out.js"] literal parser
        "/usr/local/lib/node_modules/tuture/bin/tuture" false true
        (fun _ => succeeded (header "a1a1a1a" +:+ blank +:+ unlines ["build/out.js"]))
        (Some true) (Some true) (Some defaultValues) noError.

(** The same host, on which [git show a1a1a1a] fails. *)
Definition brokenShow (c : string) : ProcResult :=
  if (c =? "a1a1a1a")%string then failed "fatal: bad object a1a1a1a" else diffOf c.

Definition brokenEnv : Env :=
  mkEnv ["yarn.lock"; ".gitignore"] literal parser
        "/usr/local/lib/node_modules/tuture/bin/tuture" false true
        (gitOn history brokenShow) (Some true) (Some true) (Some defaultValues) noError.



(** A tutorial written earlier, with explanations by the user. *)
Definition oldStep : Step :=
  mkStep "feat: add x" "a1a1a1a" (Some "Add the x module.")
         [mkFileDiff "src/index.js" (Some "The entry point.") None].

Definition oldTutorial : Tuture := mkTuture defaultValues [oldStep].

Definition initialized : FS :=
  mkFS (Some (Yml oldTutorial)) (Some (mkSupportDir (Some oldTutorial) None))
       (Some ".tuture") true (Some (getGitHook env)).

Definition bare : FS := mkFS None None None true None.

(** The hook after the user added a line of their own. *)
Definition extendedHook : string := getGitHook env +:+ "echo committed" +:+ Js.nl.

Definition extended : FS :=
  mkFS (Some (Yml oldTutorial)) (Some (mkSupportDir (Some oldTutorial) None))
       (Some ".tuture") true (Some extendedHook).

(** The steps [getSteps] makes on this repository. *)
Definition fresh : list Step :=
  [mkStep "feat: add x" "a1a1a1a" None [mkFileDiff "src/index.js" None None];
   mkStep "fix: bug" "c3c3c3c" None [mkFileDiff "src/index.js" None None]].

(** The entries [storeDiff] collects on this repository. *)
Definition archived : list CommitDiff :=
  [mkCommitDiff "a1a1a1a"
     [mkDiffFile "src/index.js" [mkHunk "@@ -0,0 +1 @@" (Some false)]];
   mkCommitDiff "c3c3c3c"
     [mkDiffFile "src/index.js" [mkHunk "@@ -0,0 +1 @@" (Some false)]]].


(** A Git on which no summary can be fetched. *)
Definition gitNoSummary (args : list string) : ProcResult :=
  match args with
  | [a; b; c] =>
      if (a =? "log")%string then gitLog history
      else failed "fatal: unable to read tree"
  | _ => gitOn history diffOf args
  end.

Definition noSummaryEnv : Env :=
  mkEnv ["yarn.lock"; ".gitignore"] literal parser
        "/usr/local/lib/node_modules/tuture/bin/tuture" false true
        gitNoSummary (Some true) (Some true) (Some defaultValues) noError.



(** A Git whose [log] prints nothing. *)
Definition silentEnv : Env :=
  mkEnv ["yarn.lock"; ".gitignore"] literal parser
        "/usr/local/lib/node_modules/tuture/bin/tuture" false true
        (fun _ => succeeded "") (Some true) (Some true) (Some defaultValues) noError.

(** The same host as [env] on Windows. *)
Definition windowsEnv : Env :=
  mkEnv ["yarn.lock"; ".gitignore"] literal parser
        "C:\Users\me\tuture\bin\tuture" true true
        (gitOn history diffOf) (Some true) (Some true) (Some defaultValues) noError.

(** A user who answers no, and one without Git. *)
Definition decliningEnv : Env :=
  mkEnv ["yarn.lock"; ".gitignore"] literal parser
        "/usr/local/lib/node_modules/tuture/bin/tuture" false true
        (gitOn history diffOf) (Some false) (Some false) (Some defaultValues) noError.

(** A working directory that is not a repository. *)
Definition outside : FS := mkFS None None None false None.

(** A support directory without [tuture.yml]. *)
Definition half : FS := mkFS None (Some (mkSupportDir None None)) None true None.

(** A repository that has a hook and ignore rules of its own. *)
Definition customized : FS :=
  mkFS None None (Some "node_modules") true (Some "#!/bin/sh").

(** The suite with a [tuture.yml] that does not parse. *)
Definition malformed : FS :=
  mkFS (Some (Unreadable "bad indentation of a mapping entry"))
       (Some (mkSupportDir (Some oldTutorial) None)) (Some ".tuture") true None.




(** A host on which every Git command fails. *)
Definition failingEnv : Env :=
  mkEnv ["yarn.lock"; ".gitignore"] literal parser
        "/usr/local/lib/node_modules/tuture/bin/tuture" false true
        (fun _ => failed "fatal: cannot mkdir .git: Permission denied")
        (Some true) (Some true) (Some defaultValues) noError.

End Sample.

(** ** Proof steps *)

(** Unfold the monad and the small commands. *)
Ltac run_monad :=
  unfold ifTutureSuiteExists, loadTuture, removeTutureSuite, promptMetaData, confirm,
    initGit, tryCatch, errAndExit, when, io, await, isGitAvailable, bind, getFS, setFS,
    ret, exit, throw;
  cbn.

(** * Properties *)

(** ** Strings *)

Section StringFacts.

Import Js.

#[local] Arguments String.append : simpl nomatch.

Lemma app_assoc_s (a b c : string) : (a +:+ b) +:+ c = a +:+ (b +:+ c).
Proof. induction a as [|x a IH]; simpl; [reflexivity | now rewrite IH]. Qed.

Lemma app_nil_r_s (a : string) : a +:+ "" = a.
Proof. induction a as [|x a IH]; simpl; [reflexivity | now rewrite IH]. Qed.

Lemma prefix_nl (c : ascii) (s : string) : String.prefix nl (String c s) = Ascii.eqb c LF.
Proof.
  unfold nl. cbn [String.prefix]. destruct (ascii_dec LF c) as [<-|Hne].
  - rewrite Ascii.eqb_refl. now destruct s.
  - symmetry. apply Ascii.eqb_neq. congruence.
Qed.

Lemma split_go_step (sep cur : string) (c : ascii) (s : string) :
  split_go sep 0 cur (String c s) =
  if String.prefix sep (String c s)
  then cur :: split_go sep (String.length sep - 1) EmptyString s
  else split_go sep 0 (cur +:+ String c EmptyString) s.
Proof. reflexivity. Qed.

Lemma split_go_nl_last (l cur : string) :
  noLF l = true -> split_go nl 0 cur l = [cur +:+ l].
Proof.
  revert cur. induction l as [|c l IH]; intros cur H.
  - simpl. now rewrite app_nil_r_s.
  - simpl in H. apply andb_true_iff in H as [Hc Hl].
    rewrite split_go_step, prefix_nl. apply negb_true_iff in Hc. rewrite Hc.
    rewrite IH by assumption. now rewrite app_assoc_s.
Qed.

Lemma split_go_nl_line (l cur rest : string) :
  noLF l = true ->
  split_go nl 0 cur (l +:+ nl +:+ rest) = (cur +:+ l) :: split_go nl 0 "" rest.
Proof.
  revert cur. induction l as [|c l IH]; intros cur H.
  - change ("" +:+ nl +:+ rest) with (String LF rest).
    rewrite split_go_step, prefix_nl, Ascii.eqb_refl, app_nil_r_s. reflexivity.
  - simpl in H. apply andb_true_iff in H as [Hc Hl].
    change (String c l +:+ nl +:+ rest) with (String c (l +:+ nl +:+ rest)).
    rewrite split_go_step, prefix_nl. apply negb_true_iff in Hc. rewrite Hc.
    rewrite IH by assumption. now rewrite app_assoc_s.
Qed.

Lemma split_unlines (ls : list string) :
  Forall (fun l => noLF l = true) ls ->
  split nl (unlines ls) = ls ++ [""].
Proof.
  unfold split. induction 1 as [|l ls Hl _ IH]; [reflexivity|].
  change (unlines (l :: ls)) with (l +:+ nl +:+ unlines ls).
  rewrite split_go_nl_line by assumption. now rewrite IH.
Qed.

Lemma split_unlines_last (ls : list string) (t : string) :
  Forall (fun l => noLF l = true) ls -> noLF t = true ->
  split nl (unlines ls +:+ t) = ls ++ [t].
Proof.
  unfold split. intros Hls Ht. induction Hls as [|l ls Hl _ IH].
  - simpl. now rewrite split_go_nl_last.
  - change (unlines (l :: ls)) with (l +:+ nl +:+ unlines ls).
    rewrite !app_assoc_s, split_go_nl_line by assumption. now rewrite IH.
Qed.

Lemma last_cons_nonempty {A} (x : A) (l : list A) (d : A) :
  l <> [] -> List.last (x :: l) d = List.last l d.
Proof. destruct l; [congruence | reflexivity]. Qed.

Lemma split_go_nonempty (sep : string) (skip : nat) (cur s : string) :
  split_go sep skip cur s <> [].
Proof.
  revert skip cur. induction s as [|c s IH]; intros skip cur; [discriminate|].
  destruct skip; [|apply IH].
  rewrite split_go_step.
  destruct (String.prefix sep (String c s)); [discriminate | apply IH].
Qed.

Lemma prefix_blank (c : ascii) (s : string) :
  String.prefix blank (String c s) = Ascii.eqb c LF && String.prefix nl s.
Proof.
  unfold blank, nl at 1. cbn [String.append String.prefix].
  destruct (ascii_dec LF c) as [<-|Hne].
  - now rewrite Ascii.eqb_refl.
  - symmetry. apply andb_false_intro1, Ascii.eqb_neq. congruence.
Qed.

Lemma split_blank_none (s cur : string) :
  includes blank s = false -> split_go blank 0 cur s = [cur +:+ s].
Proof.
  revert cur. induction s as [|c s IH]; intros cur H.
  - simpl. now rewrite app_nil_r_s.
  - cbn [includes] in H. apply orb_false_iff in H as [Hp Hi].
    rewrite split_go_step, Hp, IH by assumption. now rewrite app_assoc_s.
Qed.

(** The cut before the last block: when the text before a blank line does
    not end in a line feed and the text after it has no blank line, the last
    piece of the split is the text after it. *)
Lemma split_blank_last (n : nat) (pre cur tail : string) :
  String.length pre <= n ->
  endsLF pre = false ->
  includes blank tail = false ->
  lastElement (split_go blank 0 cur (pre +:+ blank +:+ tail)) = tail.
Proof.
  unfold lastElement. revert pre cur.
  induction n as [|n IH]; intros pre cur Hn Hpre Htail.
  - destruct pre; [|simpl in Hn; lia].
    change ("" +:+ blank +:+ tail) with (String LF (String LF tail)).
    rewrite split_go_step, prefix_blank, Ascii.eqb_refl, prefix_nl, Ascii.eqb_refl.
    cbn [andb]. change (String.length blank - 1) with 1.
    cbn [split_go]. rewrite split_blank_none by assumption. reflexivity.
  - destruct pre as [|c pre].
    + apply (IH EmptyString cur); [simpl; lia | reflexivity | assumption].
    + change (String c pre +:+ blank +:+ tail) with (String c (pre +:+ blank +:+ tail)).
      rewrite split_go_step, prefix_blank.
      destruct (Ascii.eqb c LF) eqn:Hc; cbn [andb].
      * destruct pre as [|c2 pre]; [simpl in Hpre; congruence|].
        change (String c2 pre +:+ blank +:+ tail)
          with (String c2 (pre +:+ blank +:+ tail)).
        rewrite prefix_nl.
        destruct (Ascii.eqb c2 LF) eqn:Hc2.
        -- rewrite last_cons_nonempty by apply split_go_nonempty.
           change (String.length blank - 1) with 1. cbn [split_go].
           destruct pre as [|c3 pre]; [simpl in Hpre; congruence|].
           apply (IH (String c3 pre)); [simpl in *; lia | exact Hpre | assumption].
        -- apply (IH (String c2 pre)); [simpl in *; lia | exact Hpre | assumption].
      * apply IH; [simpl in *; lia | | assumption].
        destruct pre; [reflexivity | exact Hpre].
Qed.

Lemma trimStart_id (c : ascii) (s : string) :
  is_ws c = false -> trimStart (String c s) = String c s.
Proof. intros H. simpl. now rewrite H. Qed.

Lemma trimEnd_app_keep (a b : string) :
  trimEnd b <> "" -> trimEnd (a +:+ b) = a +:+ trimEnd b.
Proof.
  intros H. induction a as [|c a IH]; [reflexivity|].
  change (String c a +:+ b) with (String c (a +:+ b)).
  cbn [trimEnd]. rewrite IH.
  destruct (a +:+ trimEnd b) eqn:E; [|simpl; now rewrite E].
  destruct a; simpl in E; congruence.
Qed.

Lemma trimEnd_app_drop (a b : string) :
  trimEnd b = "" -> trimEnd (a +:+ b) = trimEnd a.
Proof.
  intros H. induction a as [|c a IH]; [exact H|].
  change (String c a +:+ b) with (String c (a +:+ b)).
  cbn [trimEnd]. now rewrite IH.
Qed.

Lemma trimEnd_noWs (s : string) : noWs s = true -> trimEnd s = s.
Proof.
  induction s as [|c s IH]; [reflexivity|]. simpl. intros H.
  apply andb_true_iff in H as [Hc Hs]. apply negb_true_iff in Hc.
  rewrite IH, Hc by assumption. now destruct s.
Qed.

(** [trimEnd] only removes a suffix. *)
Lemma trimEnd_prefix (s : string) : exists r, s = trimEnd s +:+ r.
Proof.
  induction s as [|c s [r IH]]; [now exists ""|].
  cbn [trimEnd]. destruct (trimEnd s) eqn:E.
  - destruct (is_ws c).
    + now exists (String c s).
    + exists s. reflexivity.
  - exists r. now rewrite IH at 1.
Qed.

Lemma noLF_app (a b : string) : noLF (a +:+ b) = noLF a && noLF b.
Proof.
  induction a as [|c a IH]; [reflexivity|]. simpl. rewrite IH. now rewrite andb_assoc.
Qed.

Lemma noLF_trimEnd (s : string) : noLF s = true -> noLF (trimEnd s) = true.
Proof.
  intros H. destruct (trimEnd_prefix s) as [r Hr]. rewrite Hr, noLF_app in H.
  now apply andb_true_iff in H as [H _].
Qed.

End StringFacts.

(** ** Reading the log *)

Section LogFacts.

Import Js.

#[local] Arguments String.append : simpl nomatch.

Lemma hex_not_ws (c : ascii) : isHexDigit c = true -> is_ws c = false.
Proof. destruct c as [[] [] [] [] [] [] [] []]; vm_compute; congruence. Qed.

Lemma hex_not_LF (c : ascii) : isHexDigit c = true -> Ascii.eqb c LF = false.
Proof. destruct c as [[] [] [] [] [] [] [] []]; vm_compute; congruence. Qed.

Lemma allHex_noWs (s : string) : allHex s = true -> noWs s = true.
Proof.
  induction s as [|c s IH]; [reflexivity|]. simpl. intros H.
  apply andb_true_iff in H as [Hc Hs]. now rewrite (hex_not_ws _ Hc), IH.
Qed.

Lemma allHex_noLF (s : string) : allHex s = true -> noLF s = true.
Proof.
  induction s as [|c s IH]; [reflexivity|]. simpl. intros H.
  apply andb_true_iff in H as [Hc Hs]. now rewrite (hex_not_LF _ Hc), IH.
Qed.

Lemma length_app_s (a b : string) :
  String.length (a +:+ b) = String.length a + String.length b.
Proof. induction a as [|c a IH]; simpl; [reflexivity | now rewrite IH]. Qed.

Lemma substring_all (s : string) : substring 0 (String.length s) s = s.
Proof. induction s as [|c s IH]; simpl; [reflexivity | now rewrite IH]. Qed.

Lemma substring_head (a b : string) : substring 0 (String.length a) (a +:+ b) = a.
Proof.
  induction a as [|c a IH]; simpl; [now destruct b | now rewrite IH].
Qed.

Lemma substring_tail (a b : string) (m : nat) :
  substring (String.length a) m (a +:+ b) = substring 0 m b.
Proof. induction a as [|c a IH]; simpl; [reflexivity | exact IH]. Qed.

Lemma substring_beyond (s : string) (n m : nat) :
  String.length s <= n -> substring n m s = "".
Proof.
  revert n. induction s as [|c s IH]; intros n H.
  - now destruct n, m.
  - destruct n; simpl in *; [lia | apply IH; lia].
Qed.

Lemma parseLine_oneline (h m : string) :
  String.length h = 7 -> parseLine (h +:+ " " +:+ m) = mkCommit h m.
Proof.
  intros Hh. unfold parseLine, slice. f_equal.
  - rewrite <- Hh, Nat.sub_0_r. apply substring_head.
  - assert (Hlen : String.length (h +:+ " " +:+ m) - 8 = String.length m)
      by (rewrite !length_app_s, Hh; simpl; lia).
    rewrite Hlen.
    change (h +:+ " " +:+ m) with (h +:+ (String " " "" +:+ m)).
    rewrite <- app_assoc_s.
    replace 8 with (String.length (h +:+ String " " ""))
      by (rewrite length_app_s, Hh; reflexivity).
    rewrite substring_tail. apply substring_all.
Qed.

Lemma parseLine_bare (h : string) :
  String.length h = 7 -> parseLine h = mkCommit h "".
Proof.
  intros Hh. unfold parseLine, slice. f_equal.
  - rewrite <- Hh, Nat.sub_0_r. apply substring_all.
  - apply substring_beyond. lia.
Qed.

(** The last line of the output after [trim]. *)
Lemma trimEnd_oneline (h m : string) :
  noWs h = true -> h <> "" ->
  trimEnd (h +:+ " " +:+ m) =
  match trimEnd m with
  | EmptyString => h
  | t => h +:+ " " +:+ t
  end.
Proof.
  intros Hh Hne. destruct (trimEnd m) eqn:Em.
  - rewrite trimEnd_app_drop; [now apply trimEnd_noWs|].
    change (" " +:+ m) with (String " " m). cbn [trimEnd]. now rewrite Em.
  - rewrite trimEnd_app_keep.
    + change (" " +:+ m) with (String " " m). cbn [trimEnd]. now rewrite Em.
    + change (" " +:+ m) with (String " " m). cbn [trimEnd]. now rewrite Em.
Qed.

Lemma shortHash_length (h : string) : shortHash h = true -> String.length h = 7.
Proof.
  unfold shortHash. intros H. apply andb_true_iff in H as [H _].
  now apply Nat.eqb_eq.
Qed.

Lemma shortHash_noWs (h : string) : shortHash h = true -> noWs h = true.
Proof.
  unfold shortHash. intros H. apply andb_true_iff in H as [_ H].
  now apply allHex_noWs.
Qed.

Lemma shortHash_noLF (h : string) : shortHash h = true -> noLF h = true.
Proof.
  unfold shortHash. intros H. apply andb_true_iff in H as [_ H].
  now apply allHex_noLF.
Qed.

Lemma shortHash_nonempty (h : string) : shortHash h = true -> h <> "".
Proof. intros H ->. discriminate. Qed.

Lemma parseLine_last (c : Commit) :
  wellFormed c = true ->
  parseLine (trimEnd (oneline c)) = mkCommit (hash c) (trimEnd (subject c)).
Proof.
  unfold wellFormed, oneline. intros H. apply andb_true_iff in H as [Hh _].
  rewrite trimEnd_oneline
    by (try apply shortHash_noWs; try apply shortHash_nonempty; assumption).
  destruct (trimEnd (subject c)) eqn:E.
  - now apply parseLine_bare, shortHash_length.
  - now apply parseLine_oneline, shortHash_length.
Qed.

Lemma noLF_oneline (c : Commit) : wellFormed c = true -> noLF (oneline c) = true.
Proof.
  unfold wellFormed, oneline. intros H. apply andb_true_iff in H as [Hh Hs].
  rewrite !noLF_app, (shortHash_noLF _ Hh), Hs. reflexivity.
Qed.

Lemma unlines_app (a b : list string) : unlines (a ++ b) = unlines a +:+ unlines b.
Proof.
  induction a as [|l a IH]; [reflexivity|].
  change (unlines ((l :: a) ++ b)) with (l +:+ nl +:+ unlines (a ++ b)).
  change (unlines (l :: a)) with (l +:+ nl +:+ unlines a).
  now rewrite IH, !app_assoc_s.
Qed.

Lemma trimStart_oneline (c : Commit) (rest : string) :
  wellFormed c = true ->
  trimStart (oneline c +:+ rest) = oneline c +:+ rest.
Proof.
  unfold wellFormed, oneline, shortHash. intros H.
  apply andb_true_iff in H as [Hh _]. apply andb_true_iff in Hh as [Hl Hx].
  destruct (hash c) as [|x h]; [discriminate|].
  simpl in Hx. apply andb_true_iff in Hx as [Hx _].
  change ((String x h +:+ " " +:+ subject c) +:+ rest)
    with (String x ((h +:+ " " +:+ subject c) +:+ rest)).
  apply trimStart_id. now apply hex_not_ws.
Qed.

(** The lines [getGitLogs] returns for a history of at least one commit. *)
Lemma trim_log (older : list Commit) (c : Commit) :
  Forall (fun c => wellFormed c = true) (older ++ [c]) ->
  trim (unlines (map oneline (older ++ [c]))) =
  unlines (map oneline older) +:+ trimEnd (oneline c).
Proof.
  intros Hwf. apply Forall_app in Hwf as [Holder Hc].
  apply Forall_inv in Hc.
  assert (Hne : trimEnd (oneline c) <> "").
  { unfold oneline. unfold wellFormed in Hc. apply andb_true_iff in Hc as [Hh _].
    rewrite trimEnd_oneline
      by (try apply shortHash_noWs; try apply shortHash_nonempty; assumption).
    pose proof (shortHash_nonempty _ Hh).
    destruct (trimEnd (subject c)); [assumption|].
    destruct (hash c); [congruence | discriminate]. }
  unfold trim. rewrite map_app, unlines_app.
  change (unlines (map oneline [c])) with (oneline c +:+ nl +:+ "").
  assert (Hs : trimStart (unlines (map oneline older) +:+ oneline c +:+ nl +:+ "")
               = unlines (map oneline older) +:+ oneline c +:+ nl +:+ "").
  { destruct older as [|c0 older]; [now apply trimStart_oneline|].
    change (unlines (map oneline (c0 :: older)))
      with (oneline c0 +:+ nl +:+ unlines (map oneline older)).
    rewrite app_assoc_s. apply trimStart_oneline.
    now apply Forall_inv in Holder. }
  rewrite Hs. rewrite trimEnd_app_keep.
  - f_equal. now apply trimEnd_app_drop.
  - now rewrite trimEnd_app_drop.
Qed.

Lemma split_log (older : list Commit) (c : Commit) :
  Forall (fun c => wellFormed c = true) (older ++ [c]) ->
  split nl (trim (unlines (map oneline (older ++ [c])))) =
  map oneline older ++ [trimEnd (oneline c)].
Proof.
  intros Hwf. rewrite trim_log by assumption.
  apply Forall_app in Hwf as [Holder Hc]. apply Forall_inv in Hc.
  apply split_unlines_last.
  - apply List.Forall_forall. intros l Hin.
    apply List.in_map_iff in Hin as [c0 [<- Hin]]. apply noLF_oneline.
    rewrite List.Forall_forall in Holder. now apply Holder.
  - now apply noLF_trimEnd, noLF_oneline.
Qed.

Lemma logged_snoc (older : list Commit) (c : Commit) :
  logged (older ++ [c]) = older ++ [mkCommit (hash c) (trimEnd (subject c))].
Proof.
  unfold logged. rewrite rev_app_distr. simpl. now rewrite rev_involutive.
Qed.

Lemma map_parseLine_oneline (cs : list Commit) :
  Forall (fun c => wellFormed c = true) cs ->
  map parseLine (map oneline cs) = cs.
Proof.
  induction 1 as [|c cs Hc _ IH]; [reflexivity|]. simpl. rewrite IH. f_equal.
  unfold wellFormed in Hc. apply andb_true_iff in Hc as [Hh _].
  unfold oneline. rewrite parseLine_oneline by now apply shortHash_length.
  now destruct c.
Qed.

(** Every line is read back as the commit it was printed from. *)
Lemma getGitLogs_history (e : Env) (history : list Commit) :
  git e ["log"; "--oneline"; "--no-merges"] = gitLog history ->
  Forall (fun c => wellFormed c = true) history ->
  map parseLine (getGitLogs e) = logged history.
Proof.
  intros Hgit Hwf. unfold getGitLogs, runGitCommand. rewrite Hgit.
  destruct history as [|c0 history] using rev_ind; [reflexivity|].
  clear IHhistory.
  assert (Hlog : gitLog (history ++ [c0]) =
                 mkProc (Some 0%Z) (unlines (map oneline (history ++ [c0]))) "").
  { unfold gitLog. destruct (history ++ [c0]) eqn:E; [|reflexivity].
    now destruct history. }
  rewrite Hlog. cbn [exitCode stdout].
  rewrite split_log by assumption.
  rewrite map_app, logged_snoc. apply Forall_app in Hwf as [Holder Hc].
  rewrite map_parseLine_oneline by assumption. simpl.
  now rewrite parseLine_last by now apply Forall_inv in Hc.
Qed.

End LogFacts.

(** ** Building the steps *)

Section StepFacts.

Lemma imap_makeStep (e : Env) (pre logs : list string) :
  imap (fun i => makeStep e (pre ++ map (fun log => Js.slice 0 7 log) logs) (length pre + i)) logs
  = map (fun log => stepOf e (parseLine log)) logs.
Proof.
  revert pre. induction logs as [|log logs IH]; intros pre; [reflexivity|].
  cbn [imap map]. f_equal.
  - unfold makeStep, stepOf, parseLine. cbn [hash subject].
    rewrite Nat.add_0_r, app_nth2, Nat.sub_diag by lia. reflexivity.
  - rewrite <- (IH (pre ++ [Js.slice 0 7 log])).
    apply imap_ext. intros i x _. cbn.
    rewrite <- app_assoc, length_app. cbn. f_equal. lia.
Qed.

Lemma makeSteps_run (e : Env) (w : World) :
  makeSteps e w =
  (Ret (map (fun log => stepOf e (parseLine log)) (keptLogs (getGitLogs e))),
   mkWorld (fs w) (detached w ++ [archive e])).
Proof.
  unfold makeSteps, storeDiff, detach, bind, ret. cbn. f_equal. f_equal.
  apply (imap_makeStep e []).
Qed.

(** [getSteps] as a whole: the steps when every summary can be fetched, a
    rejection otherwise; the full diffs are left to settle on their own. *)
Lemma getSteps_run (e : Env) (w : World) :
  getSteps e w =
  (match freshSteps e with
   | Ok newSteps => Ret newSteps
   | Err m => Throw m
   end,
   mkWorld (fs w) (detached w ++ [archive e])).
Proof.
  unfold getSteps, bind. rewrite makeSteps_run. fold (freshSteps e).
  now destruct (freshSteps e).
Qed.


Lemma promiseAll_inv {A B} (f : A -> Result B) (l : list A) (r : list B) :
  promiseAll (map f l) = Ok r ->
  Forall2 (fun x y => f x = Ok y) l r.
Proof.
  revert r. induction l as [|x l IH]; intros r H; cbn in H.
  - injection H as <-. constructor.
  - destruct (f x) eqn:Hx; [|discriminate].
    destruct (promiseAll (map f l)) eqn:Hl; [|discriminate].
    injection H as <-. constructor; [assumption | now apply IH].
Qed.

Lemma promiseAll_err {A B} (f : A -> Result B) (l : list A) (x : A) (m : string) :
  In x l -> f x = Err m -> exists m', promiseAll (map f l) = Err m'.
Proof.
  intros Hin Hx. induction l as [|y l IH]; [contradiction|].
  cbn. destruct Hin as [->|Hin].
  - rewrite Hx. eauto.
  - destruct (f y); [|eauto]. destruct (IH Hin) as [m' ->]. eauto.
Qed.

Lemma keptLogs_parse (logs : list string) :
  map parseLine (keptLogs logs) =
  List.filter (fun c => negb (reserved c)) (rev (map parseLine logs)).
Proof.
  unfold keptLogs. rewrite <- map_rev.
  induction (rev logs) as [|log l IH]; [reflexivity|].
  cbn [List.filter map].
  change (Js.startsWith (Js.slice 8 (String.length log) log) "tuture:")
    with (reserved (parseLine log)).
  destruct (reserved (parseLine log)); cbn; now rewrite IH.
Qed.


Lemma commitsOf_history (e : Env) (history : list Commit) :
  git e ["log"; "--oneline"; "--no-merges"] = gitLog history ->
  Forall (fun c => wellFormed c = true) history ->
  commitsOf e = map hash (keptCommits history).
Proof.
  intros Hgit Hwf. unfold commitsOf, keptCommits.
  rewrite <- (getGitLogs_history e history Hgit Hwf), <- keptLogs_parse.
  now rewrite map_map.
Qed.

(** Fresh steps carry the identifiers of [makeSteps], in its order, and no
    explanation. *)
Lemma freshSteps_commits (e : Env) (newSteps : list Step) :
  freshSteps e = Ok newSteps -> map commit newSteps = commitsOf e.
Proof.
  unfold freshSteps, commitsOf. intros H. apply promiseAll_inv in H.
  induction H as [|log s logs newSteps Hs _ IH]; [reflexivity|].
  cbn. rewrite IH. f_equal.
  unfold stepOf in Hs. destruct (getGitDiff e (hash (parseLine log))); [|discriminate].
  injection Hs as <-. reflexivity.
Qed.

Lemma changedFilesOf_unexplained (e : Env) (output : string) :
  Forall (fun d => file_explain d = None /\ collapse d = None) (changedFilesOf e output).
Proof.
  unfold changedFilesOf. apply List.Forall_forall. intros d Hin.
  apply List.in_map_iff in Hin as [f [<- _]]. now split.
Qed.

Lemma freshSteps_unexplained (e : Env) (newSteps : list Step) :
  freshSteps e = Ok newSteps ->
  Forall (fun s => explain s = None /\
                   Forall (fun d => file_explain d = None /\ collapse d = None) (diff s))
         newSteps.
Proof.
  unfold freshSteps. intros H. apply promiseAll_inv in H.
  induction H as [|log s logs newSteps Hs _ IH]; constructor; [|assumption].
  unfold stepOf, getGitDiff in Hs.
  destruct (runGitCommand e _); [|discriminate].
  injection Hs as <-. split; [reflexivity|]. apply changedFilesOf_unexplained.
Qed.

End StepFacts.

(** ** Reconciliation *)

Section ReconcileFacts.

Lemma reconcileAt_lastMatch (oldSteps : list Step) (index : nat) (currentStep : Step)
    (arr : list Step) :
  reconcileAt oldSteps index currentStep arr =
  match lastMatch (commit currentStep) oldSteps with
  | Some s => <[index := s]> arr
  | None => arr
  end.
Proof.
  unfold reconcileAt. revert arr.
  induction oldSteps as [|s rest IH]; intros arr; [reflexivity|].
  cbn [fold_left lastMatch]. rewrite IH.
  destruct (lastMatch (commit currentStep) rest) as [s'|].
  - destruct (String.eqb (commit currentStep) (commit s)); [|reflexivity].
    apply list_insert_insert_eq.
  - now destruct (String.eqb (commit currentStep) (commit s)).
Qed.

Lemma reconcileAt_merged (oldSteps : list Step) (index : nat) (currentStep : Step)
    (arr : list Step) :
  arr !! index = Some currentStep ->
  reconcileAt oldSteps index currentStep arr = <[index := merged oldSteps currentStep]> arr.
Proof.
  intros H. rewrite reconcileAt_lastMatch. unfold merged.
  destruct (lastMatch (commit currentStep) oldSteps); [reflexivity|].
  cbn. symmetry. now apply list_insert_id.
Qed.

Lemma forEachStep_merged (oldSteps : list Step) (n index : nat) (arr : list Step) :
  index + n = length arr ->
  forEachStep n index oldSteps arr =
  take index arr ++ map (merged oldSteps) (drop index arr).
Proof.
  revert index arr. induction n as [|n IH]; intros index arr Hlen.
  - cbn. rewrite drop_ge by lia. rewrite take_ge by lia. now rewrite app_nil_r.
  - cbn [forEachStep].
    destruct (arr !! index) as [c|] eqn:Hc.
    + rewrite reconcileAt_merged by assumption.
      rewrite IH by (rewrite length_insert; lia).
      rewrite (drop_S arr c index Hc). cbn [map].
      rewrite take_S_r with (x := merged oldSteps c).
      * rewrite take_insert_ge by lia. rewrite drop_insert_lt by lia.
        now rewrite <- app_assoc.
      * apply list_lookup_insert_eq. apply lookup_lt_Some in Hc. lia.
    + apply lookup_ge_None in Hc. lia.
Qed.

(** The nested loops of [reloadTuture] amount to one pass over the new
    steps. *)
Lemma reconcile_map (oldSteps currentSteps : list Step) :
  reconcile oldSteps currentSteps = map (merged oldSteps) currentSteps.
Proof.
  unfold reconcile. now rewrite forEachStep_merged by reflexivity.
Qed.

Lemma lastMatch_Some (h : string) (oldSteps : list Step) (s : Step) :
  lastMatch h oldSteps = Some s -> In s oldSteps /\ commit s = h.
Proof.
  induction oldSteps as [|x rest IH]; [discriminate|]. cbn.
  destruct (lastMatch h rest) as [s'|].
  - intros [= ->]. destruct (IH eq_refl). auto.
  - destruct (String.eqb h (commit x)) eqn:E; [|discriminate].
    intros [= ->]. apply String.eqb_eq in E. auto.
Qed.

Lemma lastMatch_None (h : string) (oldSteps : list Step) :
  lastMatch h oldSteps = None <-> Forall (fun s => commit s <> h) oldSteps.
Proof.
  induction oldSteps as [|x rest IH]; cbn.
  - split; [constructor | reflexivity].
  - destruct (lastMatch h rest) as [s'|].
    + split; [discriminate|]. intros H. apply Forall_inv_tail, IH in H. discriminate.
    + destruct (String.eqb h (commit x)) eqn:E.
      * split; [discriminate|]. intros H. apply Forall_inv in H.
        apply String.eqb_eq in E. congruence.
      * split; [|reflexivity]. intros _. constructor; [|now apply IH].
        apply String.eqb_neq in E. congruence.
Qed.

Lemma lastMatch_app (h : string) (before after : list Step) (s : Step) :
  commit s = h ->
  Forall (fun s' => commit s' <> h) after ->
  lastMatch h (before ++ s :: after) = Some s.
Proof.
  intros Hs Hafter. induction before as [|x before IH]; cbn.
  - apply lastMatch_None in Hafter. rewrite Hafter.
    subst h. now rewrite String.eqb_refl.
  - now rewrite IH.
Qed.

Lemma merged_commit (oldSteps : list Step) (c : Step) :
  commit (merged oldSteps c) = commit c.
Proof.
  unfold merged. destruct (lastMatch (commit c) oldSteps) as [s|] eqn:E; [|reflexivity].
  now apply lastMatch_Some in E as [_ E].
Qed.

Lemma lastMatch_map (g : Step -> Step) (steps : list Step) (c : Step) :
  (forall s, commit (g s) = commit s) ->
  NoDup (map commit steps) ->
  In c steps ->
  lastMatch (commit c) (map g steps) = Some (g c).
Proof.
  intros Hg. induction steps as [|x rest IH]; intros Hnd Hin; [contradiction|].
  cbn in Hnd. apply NoDup_cons in Hnd as [Hx Hnd]. cbn [map lastMatch].
  destruct Hin as [->|Hin].
  - assert (Hnone : lastMatch (commit c) (map g rest) = None).
    { apply lastMatch_None. apply List.Forall_forall. intros s Hs.
      apply List.in_map_iff in Hs as [s0 [<- Hs0]]. rewrite Hg. intros Heq.
      apply Hx. rewrite <- Heq. apply list_elem_of_In. now apply List.in_map. }
    now rewrite Hnone, Hg, String.eqb_refl.
  - now rewrite (IH Hnd Hin).
Qed.

(** Merging a second time with the same new steps changes nothing, as
    long as no two of them share a commit hash. *)
Lemma reconcile_twice (oldSteps currentSteps : list Step) :
  NoDup (map commit currentSteps) ->
  reconcile (reconcile oldSteps currentSteps) currentSteps
  = reconcile oldSteps currentSteps.
Proof.
  intros Hnd. rewrite !reconcile_map. apply map_ext_in. intros c Hin.
  unfold merged at 1.
  now rewrite (lastMatch_map (merged oldSteps) currentSteps c
                 (merged_commit oldSteps) Hnd Hin).
Qed.

End ReconcileFacts.

(** ** The commands, unfolded *)

Section CommandFacts.

Lemma writeTuture_run (e : Env) (t : Tuture) (w : World) :
  writeTuture e t w =
  match ioError e WriteTutureJson with
  | Some m => (Throw m, w)
  | None =>
      match tutureRoot (fs w) with
      | None => (Throw "ENOENT: no such file or directory", w)
      | Some d =>
          let w1 := mkWorld (setTutureRoot (Some (mkSupportDir (Some t) (diffJson d))) (fs w))
                            (detached w) in
          match ioError e WriteTutureYml with
          | Some m => (Throw m, w1)
          | None => (Ret tt, mkWorld (setTutureYml (Some (Yml t)) (fs w1)) (detached w))
          end
      end
  end.
Proof.
  unfold writeTuture, writeInRoot, io, bind, getFS, setFS, throw, ret.
  destruct (ioError e WriteTutureJson); [reflexivity|]. cbn.
  destruct (tutureRoot (fs w)); [|reflexivity]. cbn.
  destruct (ioError e WriteTutureYml); reflexivity.
Qed.

#[local] Opaque getSteps writeTuture Js.replace Js.trim removeGitHook appendGitHook
  appendGitignore.

Lemma reloadTuture_run (e : Env) (w : World) :
  reloadTuture e w =
  match tutureRoot (fs w), tutureYml (fs w) with
  | Some _, Some y =>
      if gitInstalled e
      then match ioError e ReadTutureYml, y with
           | Some m, _ => (Exit 1 (fatal m), w)
           | None, Unreadable m => (Exit 1 (fatal m), w)
           | None, Yml t =>
               let w1 := mkWorld (fs w) (detached w ++ [archive e]) in
               match freshSteps e with
               | Err m => (Throw m, w1)
               | Ok newSteps => writeTuture e (reloaded t newSteps) w1
               end
           end
      else (Exit 1 (fatal "Git is not installed on your machine!"), w)
  | _, _ => (Exit 1 (fatal "Tuture has not been initialized!"), w)
  end.
Proof.
  destruct w as [[yml root gi dg pc] det].
  unfold reloadTuture. run_monad.
  destruct root as [d|], yml as [[t|m]|]; cbn; try reflexivity;
    destruct (gitInstalled e); cbn; try reflexivity;
    destruct (ioError e ReadTutureYml); cbn; try reflexivity.
  rewrite getSteps_run. cbn. destruct (freshSteps e); reflexivity.
Qed.

Lemma destroyTuture_absent (e : Env) (options : Options) (w : World) :
  tutureRoot (fs w) = None \/ tutureYml (fs w) = None ->
  destroyTuture e options w = (Exit 1 (fatal "No Tuture tutorial to destroy!"), w).
Proof.
  destruct w as [[yml root gi dg pc] det]. cbn.
  unfold destroyTuture. run_monad.
  intros [-> | ->]; [reflexivity|]. now destruct root.
Qed.


Lemma initTuture_split (e : Env) (options : Options) (w : World) :
  initTuture e options w =
  bind (initPrelude e options)
       (fun answers => tryCatch (initBlock e answers) (initRollback e)) w.
Proof.
  destruct w as [[yml root gi dg pc] det].
  unfold initTuture, initPrelude, initBlock, initRollback. run_monad.
  destruct root as [d|], yml as [y|]; cbn; try reflexivity;
    destruct (gitInstalled e); cbn; try reflexivity;
    destruct dg; cbn;
    repeat match goal with
      | |- context [yes options] => destruct (yes options); cbn
      | |- context [confirmInit e] => destruct (confirmInit e) as [[]|]; cbn
      | |- context [runGitCommand e ?a] => destruct (runGitCommand e a); cbn
      | |- context [metaAnswers e] => destruct (metaAnswers e); cbn
      | |- context [ioError e MkdirRoot] => destruct (ioError e MkdirRoot); cbn
      end;
    reflexivity.
Qed.

End CommandFacts.

Section RunFacts.

#[local] Opaque getSteps writeTuture Js.replace Js.trim.

Lemma settleOne_yml (p : Pending) (f : FS) :
  tutureYml (settleOne p f) = tutureYml f.
Proof.
  unfold settleOne. destruct (fetched p), (writeError p), (tutureRoot f); reflexivity.
Qed.

Lemma settleOne_twice (p : Pending) (f : FS) :
  settleOne p (settleOne p f) = settleOne p f.
Proof.
  unfold settleOne.
  destruct (fetched p), (writeError p), f as [? [?|] ? ? ?]; reflexivity.
Qed.

(** A whole run of [reloadTuture]. *)
Lemma settleOne_json (p : Pending) (f : FS) :
  (tutureJson <$> tutureRoot (settleOne p f)) = (tutureJson <$> tutureRoot f).
Proof.
  unfold settleOne.
  destruct (fetched p), (writeError p), (tutureRoot f) eqn:E; cbn; now rewrite ?E.
Qed.

Lemma settleOne_written (p : Pending) (f : FS) (diffs : list CommitDiff) (d : SupportDir) :
  fetched p = Ok diffs ->
  writeError p = None ->
  tutureRoot f = Some d ->
  settleOne p f = setTutureRoot (Some (mkSupportDir (tutureJson d) (Some diffs))) f.
Proof. unfold settleOne. now intros -> -> ->. Qed.



Lemma reload_run (e : Env) (f : FS) :
  run (reloadTuture e) f =
  match tutureRoot f, tutureYml f with
  | Some d, Some y =>
      if gitInstalled e
      then match ioError e ReadTutureYml, y with
           | Some m, _ => (Exit 1 (fatal m), f)
           | None, Unreadable m => (Exit 1 (fatal m), f)
           | None, Yml t =>
               match freshSteps e with
               | Err m => (Throw m, settleOne (archive e) f)
               | Ok newSteps =>
                   match ioError e WriteTutureJson with
                   | Some m => (Throw m, settleOne (archive e) f)
                   | None =>
                       let f1 :=
                         setTutureRoot
                           (Some (mkSupportDir (Some (reloaded t newSteps)) (diffJson d))) f in
                       match ioError e WriteTutureYml with
                       | Some m => (Throw m, settleOne (archive e) f1)
                       | None =>
                           (Ret tt,
                            settleOne (archive e)
                              (setTutureYml (Some (Yml (reloaded t newSteps))) f1))
                       end
                   end
               end
           end
      else (Exit 1 (fatal "Git is not installed on your machine!"), f)
  | _, _ => (Exit 1 (fatal "Tuture has not been initialized!"), f)
  end.
Proof.
  unfold run. rewrite reloadTuture_run. cbn [fs detached].
  destruct (tutureRoot f) as [d|] eqn:Hroot; [|reflexivity].
  destruct (tutureYml f) as [y|]; [|reflexivity].
  destruct (gitInstalled e); [|reflexivity].
  destruct (ioError e ReadTutureYml); [reflexivity|].
  destruct y as [t|m]; [|reflexivity].
  destruct (freshSteps e) as [newSteps|m]; [|reflexivity].
  rewrite writeTuture_run. cbn [fs detached]. rewrite Hroot.
  destruct (ioError e WriteTutureJson); [reflexivity|].
  cbn. destruct (ioError e WriteTutureYml); reflexivity.
Qed.

End RunFacts.

Section HistoryFacts.



Lemma logged_hash (history : list Commit) :
  map hash (logged history) = map hash history.
Proof.
  destruct history as [|c older _] using rev_ind; [reflexivity|].
  rewrite logged_snoc, !map_app. reflexivity.
Qed.








Lemma NoDup_map_filter {A B} (g : A -> B) (p : A -> bool) (l : list A) :
  List.NoDup (map g l) -> List.NoDup (map g (List.filter p l)).
Proof.
  induction l as [|x l IH]; intros H; [constructor|].
  cbn in H. apply List.NoDup_cons_iff in H as [Hx Hl]. cbn.
  destruct (p x); [|now apply IH].
  cbn. constructor; [|now apply IH].
  intros Hin. apply Hx. apply List.in_map_iff in Hin as [y [Hy Hin]].
  apply List.filter_In in Hin as [Hin _]. rewrite <- Hy. now apply List.in_map.
Qed.

(** On a history whose hashes are pairwise distinct, so are the
    identifiers [makeSteps] reads. *)
Lemma commitsOf_distinct (e : Env) (history : list Commit) :
  git e ["log"; "--oneline"; "--no-merges"] = gitLog history ->
  Forall (fun c => wellFormed c = true) history ->
  NoDup (map hash history) ->
  NoDup (commitsOf e).
Proof.
  intros Hgit Hwf Hnd. rewrite (commitsOf_history e history Hgit Hwf).
  unfold keptCommits. apply NoDup_ListNoDup, NoDup_map_filter.
  rewrite map_rev, logged_hash. now apply List.NoDup_rev, NoDup_ListNoDup.
Qed.







End HistoryFacts.

Section DiffFacts.

Import Js.

#[local] Arguments String.append : simpl nomatch.

Lemma includes_blank_cons (c : ascii) (s : string) :
  includes blank (String c s) =
  (Ascii.eqb c LF && String.prefix nl s) || includes blank s.
Proof. cbn [includes]. now rewrite prefix_blank. Qed.

Lemma includes_blank_line (l rest : string) :
  noLF l = true ->
  includes blank (l +:+ nl +:+ rest) = String.prefix nl rest || includes blank rest.
Proof.
  intros H. induction l as [|c l IH].
  - change ("" +:+ nl +:+ rest) with (String LF rest).
    now rewrite includes_blank_cons, Ascii.eqb_refl.
  - simpl in H. apply andb_true_iff in H as [Hc Hl]. apply negb_true_iff in Hc.
    change (String c l +:+ nl +:+ rest) with (String c (l +:+ nl +:+ rest)).
    rewrite includes_blank_cons, Hc. cbn [andb orb]. now apply IH.
Qed.

Lemma unlines_no_leading_LF (files : list string) :
  Forall (fun f => f <> "" /\ noLF f = true) files ->
  String.prefix nl (unlines files) = false.
Proof.
  intros H. destruct H as [|f files [Hne Hf] _]; [reflexivity|].
  destruct f as [|c f]; [congruence|]. simpl in Hf.
  apply andb_true_iff in Hf as [Hc _]. apply negb_true_iff in Hc.
  change (unlines (String c f :: files))
    with (String c (f +:+ nl +:+ unlines files)).
  now rewrite prefix_nl.
Qed.

Lemma unlines_no_blank (files : list string) :
  Forall (fun f => f <> "" /\ noLF f = true) files ->
  includes blank (unlines files) = false.
Proof.
  induction 1 as [|f files [Hne Hf] Hfiles IH]; [reflexivity|].
  change (unlines (f :: files)) with (f +:+ nl +:+ unlines files).
  now rewrite includes_blank_line, IH, unlines_no_leading_LF.
Qed.

Lemma dropLast_snoc {A} (l : list A) (x : A) : dropLast (l ++ [x]) = l.
Proof.
  unfold dropLast. rewrite length_app. cbn.
  replace (length l + 1 - 1) with (length l) by lia.
  now rewrite take_app_length.
Qed.

(** The names [getGitDiff] reads off the output of [git show --name-only]:
    the lines of the block after the last blank line. *)
Lemma changed_files_read (pre : string) (files : list string) :
  endsLF pre = false ->
  Forall (fun f => f <> "" /\ noLF f = true) files ->
  dropLast (split nl (lastElement (split blank (pre +:+ blank +:+ unlines files))))
  = files.
Proof.
  intros Hpre Hfiles. unfold split at 2.
  rewrite (split_blank_last (String.length pre)); [|lia|assumption|].
  - rewrite split_unlines; [apply dropLast_snoc|].
    eapply List.Forall_impl; [|exact Hfiles]. now intros f [_ H].
  - now apply unlines_no_blank.
Qed.

End DiffFacts.

Section InitFacts.

#[local] Opaque getSteps writeTuture Js.replace Js.trim.


End InitFacts.

(** The first case of [removeGitHook]: a hook that is exactly the
    generated script is deleted. *)
Lemma removeGitHook_generated (e : Env) (w : World) :
  postCommit (fs w) = Some (getGitHook e) ->
  ioError e ReadHook = None ->
  ioError e RemoveHook = None ->
  removeGitHook e w = (Ret tt, mkWorld (setPostCommit None (fs w)) (detached w)).
Proof.
  intros Hhook Hread Hremove.
  unfold removeGitHook, bind, getFS, io, setFS, ret. cbn. rewrite Hhook, Hread.
  cbn. rewrite String.eqb_refl, Hremove. reflexivity.
Qed.

Section FailureFacts.

#[local] Opaque getSteps writeTuture appendGitignore appendGitHook.

(** The block of [initTuture] throws when one of its four steps throws in
    the state it is run in. *)
Lemma initBlock_throws (e : Env) (answers : Meta) (w : World) (m : string) :
  (getSteps e w).1 = Throw m \/
  (exists newSteps w1,
    getSteps e w = (Ret newSteps, w1) /\
    ((writeTuture e (mkTuture answers newSteps) w1).1 = Throw m \/
     exists w2,
       writeTuture e (mkTuture answers newSteps) w1 = (Ret tt, w2) /\
       ((appendGitignore e w2).1 = Throw m \/
        exists w3,
          appendGitignore e w2 = (Ret tt, w3) /\
          (appendGitHook e w3).1 = Throw m))) ->
  (initBlock e answers w).1 = Throw m.
Proof.
  unfold initBlock, bind.
  intros [H | (newSteps & w1 & Hs & [H | (w2 & Hw & [H | (w3 & Hg & H)])])].
  - destruct (getSteps e w) as [r w1]. cbn in H. now subst r.
  - rewrite Hs. destruct (writeTuture e _ w1) as [r w2]. cbn in H. now subst r.
  - rewrite Hs, Hw. destruct (appendGitignore e w2) as [r w3]. cbn in H. now subst r.
  - now rewrite Hs, Hw, Hg.
Qed.

Lemma freshSteps_fails (e : Env) (c m : string) :
  In c (commitsOf e) -> getGitDiff e c = Err m -> exists m', freshSteps e = Err m'.
Proof.
  unfold commitsOf, freshSteps. intros Hin Hdiff.
  apply List.in_map_iff in Hin as [log [<- Hin]].
  apply (promiseAll_err _ _ log m Hin).
  unfold stepOf, parseLine. cbn [hash]. now rewrite Hdiff.
Qed.

End FailureFacts.

(** X22: a summary that cannot be fetched stops [reloadTuture] before it
    writes the tutorial: [tuture.yml] and [tuture.json] stay as they were. *)
Lemma failed_summary_aborts_reload (e : Env) (f : FS) (d : SupportDir) (t : Tuture)
    (c m : string) :
  tutureRoot f = Some d ->
  tutureYml f = Some (Yml t) ->
  gitInstalled e = true ->
  ioError e ReadTutureYml = None ->
  In c (commitsOf e) ->
  getGitDiff e c = Err m ->
  exists m',
    (run (reloadTuture e) f).1 = Throw m' /\
    tutureYml (run (reloadTuture e) f).2 = tutureYml f /\
    tutureJson <$> tutureRoot (run (reloadTuture e) f).2 = Some (tutureJson d).
Proof.
  intros Hroot Hyml Hgit Hread Hin Hdiff.
  destruct (freshSteps_fails e c m Hin Hdiff) as [m' Hfresh]. exists m'.
  rewrite reload_run, Hroot, Hyml, Hgit, Hread, Hfresh. cbn [fst snd].
  split; [reflexivity|]. split; [now rewrite settleOne_yml, Hyml|].
  now rewrite settleOne_json, Hroot.
Qed.

(** A full diff that cannot be fetched does not: the tutorial is written
    and [reloadTuture] returns; [diff.json] stays as it was. *)
Lemma failed_full_diff_passes_reload (e : Env) (f : FS) (d : SupportDir) (t : Tuture)
    (newSteps : list Step) (m : string) :
  tutureRoot f = Some d ->
  tutureYml f = Some (Yml t) ->
  gitInstalled e = true ->
  ioError e ReadTutureYml = None ->
  ioError e WriteTutureJson = None ->
  ioError e WriteTutureYml = None ->
  freshSteps e = Ok newSteps ->
  fullDiffs e = Err m ->
  run (reloadTuture e) f =
  (Ret tt,
   setTutureYml (Some (Yml (reloaded t newSteps)))
     (setTutureRoot (Some (mkSupportDir (Some (reloaded t newSteps)) (diffJson d))) f)).
Proof.
  intros Hroot Hyml Hgit Hread Hjson Hwrite Hfresh Hfull.
  rewrite reload_run, Hroot, Hyml, Hgit, Hread, Hfresh, Hjson, Hwrite.
  unfold settleOne, archive. cbn [fetched]. now rewrite Hfull.
Qed.

(** * Main results *)

(** C1: [reloadTuture] puts, at the place of every new step whose commit
    hash an old step has, that old step as it was read (the last one, should
    several old steps have the hash), with its explanation and its file
    list; a new step whose hash no old step has stays as it was made, without
    explanations. *)
Theorem reload_keeps_old_steps (e : Env) (f : FS) (d : SupportDir) (t : Tuture)
    (newSteps : list Step) :
  tutureRoot f = Some d ->
  tutureYml f = Some (Yml t) ->
  gitInstalled e = true ->
  ioError e ReadTutureYml = None ->
  ioError e WriteTutureJson = None ->
  ioError e WriteTutureYml = None ->
  (getSteps e (mkWorld f [])).1 = Ret newSteps ->
  exists f' t',
    run (reloadTuture e) f = (Ret tt, f') /\
    tutureYml f' = Some (Yml t') /\
    meta t' = meta t /\
    length (steps t') = length newSteps /\
    forall i c, newSteps !! i = Some c ->
      (forall before s after,
         steps t = before ++ s :: after ->
         commit s = commit c ->
         Forall (fun s' => commit s' <> commit c) after ->
         steps t' !! i = Some s) /\
      (Forall (fun s => commit s <> commit c) (steps t) ->
       steps t' !! i = Some c /\
       explain c = None /\
       Forall (fun x => file_explain x = None /\ collapse x = None) (diff c)).
Proof.
  intros Hroot Hyml Hgit Hread Hjson Hwrite Hsteps.
  rewrite getSteps_run in Hsteps. cbn in Hsteps.
  destruct (freshSteps e) as [fresh|m] eqn:Hfresh; [|discriminate].
  injection Hsteps as ->.
  eexists _, (reloaded t newSteps). split; [|split; [|split; [|split]]].
  - rewrite reload_run, Hroot, Hyml, Hgit, Hread, Hfresh, Hjson, Hwrite. reflexivity.
  - now rewrite settleOne_yml.
  - reflexivity.
  - cbn. now rewrite reconcile_map, length_map.
  - intros i c Hc. cbn [steps reloaded]. rewrite reconcile_map.
    assert (Hi : map (merged (steps t)) newSteps !! i = Some (merged (steps t) c)).
    { change (map (merged (steps t)) newSteps) with (merged (steps t) <$> newSteps).
      now rewrite list_lookup_fmap, Hc. }
    split.
    + intros before s after Hold Hs Hafter. rewrite Hi. f_equal.
      unfold merged. now rewrite Hold, (lastMatch_app _ before after s Hs Hafter).
    + intros Hnone. rewrite Hi. unfold merged.
      apply lastMatch_None in Hnone. rewrite Hnone. cbn.
      pose proof (freshSteps_unexplained e newSteps Hfresh) as Hun.
      rewrite List.Forall_forall in Hun.
      apply list_elem_of_lookup_2, list_elem_of_In in Hc.
      destruct (Hun c Hc) as [He Hd]. auto.
Qed.

(** C2: run on the files a first [reloadTuture] left, with the same
    history, a second one ends the same way and leaves the same files, as
    long as the commit hashes [makeSteps] reads are pairwise distinct. *)
Theorem reload_idempotent (e : Env) (f : FS) :
  NoDup (commitsOf e) ->
  run (reloadTuture e) (run (reloadTuture e) f).2 = run (reloadTuture e) f.
Proof.
  intros Hnd. rewrite (reload_run e f).
  destruct f as [yml root gi dg pc]. cbn [tutureRoot tutureYml].
  destruct root as [d|]; [|now rewrite reload_run].
  destruct yml as [y|]; [|now rewrite reload_run].
  destruct (gitInstalled e) eqn:Hgit; [|now rewrite reload_run; cbn; rewrite Hgit].
  destruct (ioError e ReadTutureYml) as [m|] eqn:Hread;
    [now rewrite reload_run; cbn; rewrite Hgit, Hread|].
  destruct y as [t|m]; [|now rewrite reload_run; cbn; rewrite Hgit, Hread].
  destruct (freshSteps e) as [newSteps|m] eqn:Hfresh.
  - assert (Htwice : reloaded (reloaded t newSteps) newSteps = reloaded t newSteps).
    { unfold reloaded. cbn. f_equal. apply reconcile_twice.
      now rewrite (freshSteps_commits e newSteps Hfresh). }
    destruct (ioError e WriteTutureJson) as [m|] eqn:Hjson.
    + rewrite reload_run. cbn [snd]. unfold settleOne, archive. cbn [fetched writeError].
      destruct (fullDiffs e) eqn:Hfull, (ioError e WriteDiffJson) eqn:Hdiff; cbn;
        rewrite Hgit, Hread, Hfresh, Hjson, ?Hfull, ?Hdiff; reflexivity.
    + cbn zeta. destruct (ioError e WriteTutureYml) as [m|] eqn:Hwrite.
      * rewrite reload_run. cbn [snd]. unfold settleOne, archive. cbn [fetched writeError].
        destruct (fullDiffs e) eqn:Hfull, (ioError e WriteDiffJson) eqn:Hdiff; cbn;
          rewrite Hgit, Hread, Hfresh, Hjson, Hwrite, ?Hfull, ?Hdiff; reflexivity.
      * rewrite reload_run. cbn [snd]. unfold settleOne, archive. cbn [fetched writeError].
        destruct (fullDiffs e) eqn:Hfull, (ioError e WriteDiffJson) eqn:Hdiff; cbn;
          rewrite Hgit, Hread, Hfresh, Hjson, Hwrite, ?Hfull, ?Hdiff, Htwice; reflexivity.
  - rewrite reload_run. cbn [snd]. unfold settleOne, archive. cbn [fetched writeError].
    destruct (fullDiffs e) eqn:Hfull, (ioError e WriteDiffJson) eqn:Hdiff; cbn;
      rewrite Hgit, Hread, Hfresh, ?Hfull, ?Hdiff; reflexivity.
Qed.




(** C5 as stated fails: with the ignore pattern [build/out.js], the changed
    file [build/out.js] matches the pattern and is still listed, because the
    pattern is tried on the base name [out.js]. *)
Lemma path_pattern_not_applied :
  exists ds d pattern,
    getGitDiff Sample.pathEnv "a1a1a1a" = Ok ds /\
    In d ds /\
    In pattern (ignoreFiles Sample.pathEnv) /\
    minimatch Sample.pathEnv (file d) pattern = true.
Proof.
  exists [mkFileDiff "build/out.js" None None], (mkFileDiff "build/out.js" None None),
    "build/out.js".
  repeat split; [left; reflexivity | left; reflexivity].
Qed.

(** C5, as the code has it: [getGitDiff] returns the changed files in the
    order Git lists them, leaving out those whose base name (the last
    component of the path) matches one of the ignore patterns. *)
Theorem getGitDiff_filters_base_names (e : Env) (c pre : string) (files : list string) :
  exitCode (git e (showNames c)) = Some 0%Z ->
  stdout (git e (showNames c)) = pre +:+ blank +:+ unlines files ->
  endsLF pre = false ->
  Forall (fun f => f <> "" /\ noLF f = true) files ->
  getGitDiff e c =
  Ok (map (fun f => mkFileDiff f None None)
          (List.filter
             (fun f => negb (existsb (fun pattern => minimatch e (Js.basename f) pattern)
                                     (ignoreFiles e)))
             files)).
Proof.
  intros Hexit Hout Hpre Hfiles.
  unfold getGitDiff, runGitCommand. fold (showNames c). rewrite Hexit, Hout.
  unfold changedFilesOf. fold blank.
  now rewrite changed_files_read.
Qed.

(** C6: [reload] on an absent suite and [destroy] without a suite are fatal:
    the message is shown, the process exits with code 1, and no file is
    changed. *)
Theorem absent_suite_is_fatal (e : Env) (options : Options) (f : FS) :
  tutureRoot f = None \/ tutureYml f = None ->
  run (reloadTuture e) f = (Exit 1 "Tuture has not been initialized!", f) /\
  run (destroyTuture e options) f = (Exit 1 "No Tuture tutorial to destroy!", f).
Proof.
  intros H. split.
  - rewrite reload_run. destruct H as [-> | ->]; [reflexivity|].
    now destruct (tutureRoot f).
  - unfold run. now rewrite destroyTuture_absent.
Qed.


(** C8, at a failing input: [git show a1a1a1a] fails, so the promise that
    [storeDiff] leaves behind rejects; [reloadTuture] writes the tutorial
    all the same and returns normally, and so does [initTuture]; only
    [diff.json] is not written. *)
Theorem failed_full_diff_goes_unnoticed :
  fetchFullDiff Sample.brokenEnv "a1a1a1a" = Err "fatal: bad object a1a1a1a" /\
  (exists t,
     run (reloadTuture Sample.brokenEnv) Sample.initialized =
     (Ret tt,
      mkFS (Some (Yml t)) (Some (mkSupportDir (Some t) None))
           (Some ".tuture") true (Some (getGitHook Sample.env))) /\
     map commit (steps t) = ["a1a1a1a"; "c3c3c3c"]) /\
  (exists t gi,
     run (initTuture Sample.brokenEnv (mkOptions true false)) Sample.bare =
     (Ret tt,
      mkFS (Some (Yml t)) (Some (mkSupportDir (Some t) None))
           gi true (Some (getGitHook Sample.env)))).
Proof.
  split; [reflexivity|]. split.
  - eexists. split; [vm_compute; reflexivity | reflexivity].
  - eexists _, _. vm_compute. reflexivity.
Qed.

(** C9, at a failing input: the hook is the generated script followed by a
    line of the user.  [destroyTuture] takes the words [tuture reload] out
    and leaves the rest of the injected line, the path up to [bin/], in the
    hook; a hook that is exactly the generated script is deleted. *)
Theorem removeGitHook_leaves_injected_path :
  Sample.extendedHook =
    "#!/bin/sh" +:+ Js.nl +:+
    "/usr/local/lib/node_modules/tuture/bin/tuture reload" +:+ Js.nl +:+
    "echo committed" +:+ Js.nl /\
  run (destroyTuture Sample.env (mkOptions false true)) Sample.extended =
    (Ret tt,
     mkFS None None (Some ".tuture") true
          (Some ("#!/bin/sh" +:+ Js.nl +:+
                 "/usr/local/lib/node_modules/tuture/bin/" +:+ Js.nl +:+
                 "echo committed" +:+ Js.nl))) /\
  run (destroyTuture Sample.env (mkOptions false true)) Sample.initialized =
    (Ret tt, mkFS None None (Some ".tuture") true None).
Proof. repeat split. Qed.

(** C10: whatever makes [git log] fail, [getGitLogs] returns the empty
    array, and the steps built from it are none. *)
Theorem getGitLogs_swallows_failure (e : Env) (w : World) :
  exitCode (git e ["log"; "--oneline"; "--no-merges"]) <> Some 0%Z ->
  getGitLogs e = [] /\ (getSteps e w).1 = Ret [].
Proof.
  intros H.
  assert (Hlogs : getGitLogs e = []).
  { unfold getGitLogs, runGitCommand.
    destruct (exitCode (git e ["log"; "--oneline"; "--no-merges"])) as [[| |]|];
      try reflexivity.
    congruence. }
  split; [assumption|].
  rewrite getSteps_run. unfold freshSteps. now rewrite Hlogs.
Qed.

(** * The results on the sample repository *)

(** C6 on a repository without a suite. *)
Lemma absent_suite_is_fatal_witness :
  (tutureRoot Sample.bare = None \/ tutureYml Sample.bare = None) /\
  run (reloadTuture Sample.env) Sample.bare =
    (Exit 1 "Tuture has not been initialized!", Sample.bare) /\
  run (destroyTuture Sample.env (mkOptions false true)) Sample.bare =
    (Exit 1 "No Tuture tutorial to destroy!", Sample.bare).
Proof.
  split; [left; reflexivity|].
  apply (absent_suite_is_fatal Sample.env (mkOptions false true) Sample.bare).
  left; reflexivity.
Defined.

(** C10 on a repository without a commit. *)
Lemma getGitLogs_swallows_failure_witness :
  exitCode (git (Sample.envOn []) ["log"; "--oneline"; "--no-merges"]) <> Some 0%Z /\
  getGitLogs (Sample.envOn []) = [] /\
  (getSteps (Sample.envOn []) (mkWorld Sample.bare [])).1 = Ret [].
Proof.
  split; [discriminate|].
  apply (getGitLogs_swallows_failure (Sample.envOn []) (mkWorld Sample.bare [])).
  discriminate.
Defined.

(** C1 on the sample suite: the step of [a1a1a1a] keeps its explanations. *)
Lemma reload_keeps_old_steps_witness :
  (getSteps Sample.env (mkWorld Sample.initialized [])).1 = Ret Sample.fresh /\
  exists f' t',
    run (reloadTuture Sample.env) Sample.initialized = (Ret tt, f') /\
    tutureYml f' = Some (Yml t') /\
    meta t' = meta Sample.oldTutorial /\
    length (steps t') = length Sample.fresh /\
    forall i c, Sample.fresh !! i = Some c ->
      (forall before s after,
         steps Sample.oldTutorial = before ++ s :: after ->
         commit s = commit c ->
         Forall (fun s' => commit s' <> commit c) after ->
         steps t' !! i = Some s) /\
      (Forall (fun s => commit s <> commit c) (steps Sample.oldTutorial) ->
       steps t' !! i = Some c /\
       explain c = None /\
       Forall (fun x => file_explain x = None /\ collapse x = None) (diff c)).
Proof.
  split; [reflexivity|].
  apply (reload_keeps_old_steps Sample.env Sample.initialized
           (mkSupportDir (Some Sample.oldTutorial) None) Sample.oldTutorial Sample.fresh);
    reflexivity.
Defined.

(** C2 on the sample suite. *)
Lemma reload_idempotent_witness :
  NoDup (commitsOf Sample.env) /\
  run (reloadTuture Sample.env) (run (reloadTuture Sample.env) Sample.initialized).2 =
  run (reloadTuture Sample.env) Sample.initialized.
Proof.
  assert (H : NoDup (commitsOf Sample.env)).
  { apply (bool_decide_unpack _). vm_compute. exact I. }
  split; [exact H|].
  apply (reload_idempotent Sample.env Sample.initialized H).
Defined.



(** C5 on the sample commit: [yarn.lock] is left out. *)
Lemma getGitDiff_filters_base_names_witness :
  stdout (git Sample.env (showNames "a1a1a1a")) =
    Sample.header "a1a1a1a" +:+ blank +:+ unlines ["src/index.js"; "yarn.lock"] /\
  getGitDiff Sample.env "a1a1a1a" = Ok [mkFileDiff "src/index.js" None None].
Proof.
  split; [reflexivity|].
  apply (getGitDiff_filters_base_names Sample.env "a1a1a1a"
           (Sample.header "a1a1a1a") Sample.changed).
  - reflexivity.
  - reflexivity.
  - reflexivity.
  - repeat constructor; discriminate.
Defined.


(** ** Checks of the primitives *)

Example split_lines : Js.split Js.nl ("ab" +:+ Js.nl +:+ "c" +:+ Js.nl) = ["ab"; "c"; ""].
Proof. reflexivity. Qed.

Example split_empty : Js.split Js.nl "" = [""].
Proof. reflexivity. Qed.

Example split_blank_greedy :
  Js.split blank ("h" +:+ Js.nl +:+ Js.nl +:+ Js.nl +:+ "f") = ["h"; Js.nl +:+ "f"].
Proof. reflexivity. Qed.

Example trim_both : Js.trim ("  a b " +:+ Js.nl) = "a b".
Proof. reflexivity. Qed.

Example replace_first_only : Js.replace "ab" "" "xabyab" = "xyab".
Proof. reflexivity. Qed.

Example basename_nested : Js.basename "src/lib/utils.js" = "utils.js".
Proof. reflexivity. Qed.

Example basename_trailing : Js.basename "src/lib/" = "lib".
Proof. reflexivity. Qed.

Example slice_short : Js.slice 8 3 "abc" = "".
Proof. reflexivity. Qed.

Example hook_on_windows :
  getGitHook (mkEnv [] Sample.literal Sample.parser "C:\tuture\bin\tuture" true true
                    (fun _ => Sample.failed "") None None None Sample.noError)
  = "#!/bin/sh" +:+ Js.nl +:+ "C:/tuture/bin/tuture reload" +:+ Js.nl.
Proof. reflexivity. Qed.

(** A commit without changed files: the last block of the output of
    [git show --name-only] is the message. *)
Example empty_commit_lists_message :
  changedFilesOf Sample.env (Sample.header "a1a1a1a" +:+ Js.nl)
  = [mkFileDiff "    subject" None None].
Proof. reflexivity. Qed.

(** Two old steps with one hash: the later one is kept. *)
Example reconcile_last_wins :
  reconcile [mkStep "a" "a1a1a1a" (Some "first") []; mkStep "a" "a1a1a1a" (Some "second") []]
            [mkStep "a" "a1a1a1a" None []]
  = [mkStep "a" "a1a1a1a" (Some "second") []].
Proof. reflexivity. Qed.

(** * Further properties *)

(** ** More on strings *)

Section MoreStringFacts.

Import Js.

#[local] Arguments String.append : simpl nomatch.

Lemma prefix_app_self (p r : string) : String.prefix p (p +:+ r) = true.
Proof.
  induction p as [|c p IH]; [now destruct r|].
  change (String c p +:+ r) with (String c (p +:+ r)). cbn [String.prefix].
  destruct (ascii_dec c c); [exact IH | congruence].
Qed.

Lemma replace_unfold (p repl s : string) :
  replace p repl s =
  if String.prefix p s
  then repl +:+ slice (String.length p) (String.length s) s
  else match s with
       | EmptyString => EmptyString
       | String c s' => String c (replace p repl s')
       end.
Proof. now destruct s. Qed.

Lemma includes_unfold (sub s : string) :
  includes sub s =
  String.prefix sub s
  || match s with
     | EmptyString => false
     | String _ s' => includes sub s'
     end.
Proof. now destruct s. Qed.

Lemma includes_here (sub rest : string) : includes sub (sub +:+ rest) = true.
Proof. now rewrite includes_unfold, prefix_app_self. Qed.

Lemma includes_app_r (sub a b : string) :
  includes sub b = true -> includes sub (a +:+ b) = true.
Proof.
  intros H. induction a as [|c a IH]; [exact H|].
  change (String c a +:+ b) with (String c (a +:+ b)). cbn [includes].
  rewrite IH. apply orb_true_r.
Qed.

Lemma replace_prefix (p repl x : string) : replace p repl (p +:+ x) = repl +:+ x.
Proof.
  rewrite replace_unfold, prefix_app_self. f_equal.
  unfold slice. rewrite length_app_s, substring_tail.
  replace (String.length p + String.length x - String.length p)
    with (String.length x) by lia.
  apply substring_all.
Qed.

Lemma list_ascii_app (a b : string) :
  list_ascii_of_string (a +:+ b) = list_ascii_of_string a ++ list_ascii_of_string b.
Proof. induction a as [|c a IH]; cbn; [reflexivity | now rewrite IH]. Qed.

Lemma string_of_list_app (a b : list ascii) :
  string_of_list_ascii (a ++ b) = string_of_list_ascii a +:+ string_of_list_ascii b.
Proof. induction a as [|c a IH]; cbn; [reflexivity | now rewrite IH]. Qed.

Lemma replaceBackslashes_app (a b : string) :
  replaceBackslashes (a +:+ b) = replaceBackslashes a +:+ replaceBackslashes b.
Proof.
  unfold replaceBackslashes. now rewrite list_ascii_app, map_app, string_of_list_app.
Qed.

Lemma replaceBackslashes_clean (s : string) :
  ~ In "092"%char (list_ascii_of_string (replaceBackslashes s)).
Proof.
  unfold replaceBackslashes. rewrite list_ascii_of_string_of_list_ascii.
  intros H. apply List.in_map_iff in H as [c [Hc _]].
  destruct (Ascii.eqb c "092") eqn:E; [discriminate|].
  apply Ascii.eqb_neq in E. congruence.
Qed.

Lemma substring_length_le (n m : nat) (s : string) :
  String.length (substring n m s) <= m.
Proof.
  revert n m. induction s as [|c s IH]; intros n m.
  - destruct n, m; cbn; lia.
  - destruct n; [destruct m; cbn; [lia | specialize (IH 0 m); lia]|].
    cbn. apply IH.
Qed.

End MoreStringFacts.

(** ** The other commands, unfolded *)

Section MoreCommandFacts.

#[local] Opaque getSteps writeTuture Js.replace Js.trim Js.includes getGitHook.

Lemma appendGitignore_run (e : Env) (w : World) :
  ioError e WriteGitignore = None ->
  ioError e ReadGitignore = None ->
  ioError e AppendGitignore = None ->
  appendGitignore e w =
  (Ret tt, mkWorld (setGitignore (Some (gitignoreAfter (gitignore (fs w)))) (fs w))
                   (detached w)).
Proof.
  intros Hw Hr Ha. destruct w as [[yml root gi dg pc] det].
  unfold appendGitignore, gitignoreAfter, ignoreRules. run_monad.
  destruct gi as [content|]; rewrite ?Hw, ?Hr; cbn; [|reflexivity].
  destruct (Js.includes ".tuture" content); cbn; [reflexivity|].
  rewrite Ha. reflexivity.
Qed.

Lemma appendGitHook_run (e : Env) (w : World) :
  ioError e WriteHook = None ->
  ioError e ReadHook = None ->
  ioError e AppendHook = None ->
  appendGitHook e w =
  (Ret tt, mkWorld (setPostCommit (Some (hookAfter e (postCommit (fs w)))) (fs w))
                   (detached w)).
Proof.
  intros Hw Hr Ha. destruct w as [[yml root gi dg pc] det].
  unfold appendGitHook, hookAfter. run_monad.
  destruct pc as [hook|]; rewrite ?Hw, ?Hr; cbn; [|reflexivity].
  destruct (Js.includes "tuture reload" hook); cbn; [reflexivity|].
  rewrite Ha. reflexivity.
Qed.

Lemma removeGitHook_run (e : Env) (w : World) :
  ioError e WriteHook = None ->
  ioError e ReadHook = None ->
  ioError e RemoveHook = None ->
  removeGitHook e w =
  (Ret tt,
   mkWorld
     (setPostCommit
        (match postCommit (fs w) with
         | Some hook =>
             if String.eqb hook (getGitHook e) then None
             else Some (Js.replace "tuture reload" "" hook)
         | None => None
         end)
        (fs w))
     (detached w)).
Proof.
  intros Hw Hr Hd. destruct w as [[yml root gi dg pc] det].
  unfold removeGitHook. run_monad.
  destruct pc as [hook|]; rewrite ?Hr; cbn; [|reflexivity].
  destruct (String.eqb hook (getGitHook e)); rewrite ?Hw, ?Hd; reflexivity.
Qed.

End MoreCommandFacts.

Section MoreRunFacts.

#[local] Opaque getSteps writeTuture Js.replace Js.trim Js.includes getGitHook
  appendGitignore appendGitHook removeGitHook.

Lemma initPrelude_run (e : Env) (options : Options) (f : FS) (answers : Meta) :
  tutureRoot f = None ->
  gitInstalled e = true ->
  dotGit f = true ->
  answersOf e options = Some answers ->
  ioError e MkdirRoot = None ->
  initPrelude e options (mkWorld f []) =
  (Ret answers, mkWorld (setTutureRoot (Some (mkSupportDir None None)) f) []).
Proof.
  intros Hroot Hgit Hdot Hans Hmk. destruct f as [yml root gi dg pc].
  cbn in Hroot, Hdot. subst root dg. unfold answersOf in Hans.
  unfold initPrelude. run_monad. rewrite Hgit. cbn.
  destruct (yes options); cbn.
  - injection Hans as <-. rewrite Hmk. reflexivity.
  - rewrite Hans. cbn. rewrite Hmk. reflexivity.
Qed.

Lemma initTuture_success_run (e : Env) (options : Options) (f : FS) (answers : Meta)
    (newSteps : list Step) :
  tutureRoot f = None ->
  gitInstalled e = true ->
  dotGit f = true ->
  answersOf e options = Some answers ->
  (forall c, ioError e c = None) ->
  freshSteps e = Ok newSteps ->
  initTuture e options (mkWorld f []) =
  (Ret tt,
   mkWorld
     (mkFS (Some (Yml (mkTuture answers newSteps)))
           (Some (mkSupportDir (Some (mkTuture answers newSteps)) None))
           (Some (gitignoreAfter (gitignore f))) true
           (Some (hookAfter e (postCommit f))))
     [archive e]).
Proof.
  intros Hroot Hgit Hdot Hans Hio Hfresh.
  rewrite initTuture_split. unfold bind at 1.
  rewrite (initPrelude_run e options f answers Hroot Hgit Hdot Hans (Hio _)).
  unfold tryCatch, initBlock, bind. rewrite getSteps_run, Hfresh.
  rewrite writeTuture_run, !Hio. cbn.
  rewrite appendGitignore_run by apply Hio.
  rewrite appendGitHook_run by apply Hio.
  destruct f as [yml root gi dg pc]. cbn in *. now subst.
Qed.

Lemma destroyTuture_run (e : Env) (options : Options) (w : World) (d : SupportDir)
    (y : YmlFile) :
  tutureRoot (fs w) = Some d ->
  tutureYml (fs w) = Some y ->
  force options = true \/ confirmDestroy e = Some true ->
  (forall c, ioError e c = None) ->
  destroyTuture e options w =
  (Ret tt,
   mkWorld
     (mkFS None None (gitignore (fs w)) (dotGit (fs w))
        (match postCommit (fs w) with
         | Some hook =>
             if String.eqb hook (getGitHook e) then None
             else Some (Js.replace "tuture reload" "" hook)
         | None => None
         end))
     (detached w)).
Proof.
  intros Hroot Hyml Hforce Hio.
  unfold destroyTuture, bind at 1, ifTutureSuiteExists, bind at 1, getFS, ret.
  rewrite Hroot, Hyml. cbn.
  assert (Hanswer : forall w0,
            (if force options then ret true else confirm (confirmDestroy e)) w0
            = (Ret true, w0)).
  { intros w0. destruct (force options); [reflexivity|].
    destruct Hforce as [Hf|Hc]; [discriminate | now rewrite Hc]. }
  unfold bind. rewrite Hanswer. cbn.
  rewrite removeGitHook_run by apply Hio.
  unfold removeTutureSuite, bind, io, setFS, ret. rewrite !Hio. reflexivity.
Qed.

Lemma startRenderer_run (e : Env) (renderer : option string) (w : World) :
  startRenderer e renderer w =
  match tutureRoot (fs w), tutureYml (fs w) with
  | Some d, Some y =>
      match ioError e ReadTutureYml, y with
      | Some m, _ => (Throw m, w)
      | None, Unreadable m => (Throw m, w)
      | None, Yml t =>
          match ioError e WriteTutureJson with
          | Some m => (Throw m, w)
          | None =>
              (match renderer with
               | Some _ => Exit 1 (fatal "tuture-renderer is not available!")
               | None => Ret tt
               end,
               mkWorld (setTutureRoot (Some (mkSupportDir (Some t) (diffJson d))) (fs w))
                       (detached w))
          end
      end
  | _, _ => (Exit 1 (fatal "Tuture has not been initialized!"), w)
  end.
Proof.
  destruct w as [[yml root gi dg pc] det].
  unfold startRenderer, writeInRoot. run_monad.
  destruct root as [d|], yml as [[t|m]|]; cbn; try reflexivity;
    destruct (ioError e ReadTutureYml); cbn; try reflexivity.
  destruct (ioError e WriteTutureJson); cbn; [reflexivity|].
  destruct renderer; reflexivity.
Qed.

Lemma fullDiffs_commits (e : Env) (diffs : list CommitDiff) :
  fullDiffs e = Ok diffs -> map diffCommit diffs = commitsOf e.
Proof.
  unfold fullDiffs. intros H. apply promiseAll_inv in H.
  induction H as [|c d cs diffs Hd _ IH]; [reflexivity|].
  cbn. rewrite IH. f_equal. unfold fetchFullDiff in Hd.
  destruct (runGitCommand e ["show"; c]); [|discriminate].
  destruct (parseDiff e _); [|discriminate].
  now injection Hd as <-.
Qed.

Lemma reconcile_commits (oldSteps currentSteps : list Step) :
  map commit (reconcile oldSteps currentSteps) = map commit currentSteps.
Proof.
  rewrite reconcile_map, map_map. apply map_ext. apply merged_commit.
Qed.

End MoreRunFacts.

(** ** Initialization *)

(** X1: [initTuture] on a suite that exists shows that Tuture has been
    initialized already, exits with code 0 and changes no file. *)
Theorem init_twice_is_noop (e : Env) (options : Options) (f : FS) (d : SupportDir)
    (y : YmlFile) :
  tutureRoot f = Some d ->
  tutureYml f = Some y ->
  run (initTuture e options) f = (Exit 0 "Tuture has already been initialized!", f).
Proof.
  intros Hroot Hyml. unfold run, initTuture, bind at 1, ifTutureSuiteExists,
    bind at 1, getFS, ret. cbn. rewrite Hroot, Hyml. reflexivity.
Qed.

(** X2: in a repository, with Git installed and answers at hand,
    [initTuture] on a directory without [.tuture] writes the same tutorial,
    the answers with the new steps, to [tuture.yml] (replacing a file of
    that name) and to [tuture.json], adds the ignore rule and the hook, and
    returns. *)
Theorem init_creates_suite (e : Env) (options : Options) (f : FS) (answers : Meta)
    (newSteps : list Step) :
  tutureRoot f = None ->
  gitInstalled e = true ->
  dotGit f = true ->
  answersOf e options = Some answers ->
  (forall c, ioError e c = None) ->
  (getSteps e (mkWorld f [])).1 = Ret newSteps ->
  run (initTuture e options) f =
  (Ret tt,
   settleOne (archive e)
     (mkFS (Some (Yml (mkTuture answers newSteps)))
           (Some (mkSupportDir (Some (mkTuture answers newSteps)) None))
           (Some (gitignoreAfter (gitignore f))) true
           (Some (hookAfter e (postCommit f))))).
Proof.
  intros Hroot Hgit Hdot Hans Hio Hsteps.
  rewrite getSteps_run in Hsteps. cbn in Hsteps.
  destruct (freshSteps e) as [fresh|] eqn:Hfresh; [|discriminate].
  injection Hsteps as ->. unfold run.
  now rewrite (initTuture_success_run e options f answers newSteps).
Qed.

(** X3: [destroyTuture] after [initTuture], on a repository that had
    neither [tuture.yml] nor a post-commit hook, gives the files back as
    they were, but for the rule [initTuture] added to [.gitignore]. *)
Theorem destroy_undoes_init (e : Env) (options options' : Options) (f : FS)
    (answers : Meta) (newSteps : list Step) :
  tutureRoot f = None ->
  tutureYml f = None ->
  postCommit f = None ->
  gitInstalled e = true ->
  dotGit f = true ->
  answersOf e options = Some answers ->
  (forall c, ioError e c = None) ->
  (getSteps e (mkWorld f [])).1 = Ret newSteps ->
  force options' = true \/ confirmDestroy e = Some true ->
  run (destroyTuture e options') (run (initTuture e options) f).2 =
  (Ret tt, setGitignore (Some (gitignoreAfter (gitignore f))) f).
Proof.
  intros Hroot Hyml Hhook Hgit Hdot Hans Hio Hsteps Hforce.
  rewrite (init_creates_suite e options f answers newSteps) by assumption.
  cbn [snd]. unfold run.
  destruct f as [yml root gi dg pc]. cbn in Hroot, Hyml, Hhook, Hdot. subst.
  unfold hookAfter.
  unfold settleOne, archive. cbn [fetched writeError]. rewrite (Hio WriteDiffJson).
  destruct (fullDiffs e) as [diffs|m]; cbn [tutureRoot setTutureRoot
    tutureYml gitignore dotGit postCommit tutureJson].
  - erewrite destroyTuture_run; [|reflexivity|reflexivity|assumption|assumption].
    cbn. now rewrite String.eqb_refl.
  - erewrite destroyTuture_run; [|reflexivity|reflexivity|assumption|assumption].
    cbn. now rewrite String.eqb_refl.
Qed.

(** X4: without a suite, [initTuture] stops with exit code 1 and no file
    changed when Git is not installed, and when the directory is not a
    repository and the user does not agree to make it one. *)
Theorem init_aborts_untouched (e : Env) (options : Options) (f : FS) :
  tutureRoot f = None \/ tutureYml f = None ->
  (gitInstalled e = false ->
   run (initTuture e options) f =
     (Exit 1 "Git is not installed on your machine!", f)) /\
  (gitInstalled e = true -> dotGit f = false -> yes options = false ->
   confirmInit e <> Some true ->
   run (initTuture e options) f = (Exit 1 "Aborted!", f)).
Proof.
  intros Hsuite.
  assert (Hno : bool_decide (is_Some (tutureRoot f)) && bool_decide (is_Some (tutureYml f))
                = false).
  { destruct Hsuite as [-> | ->]; [reflexivity|]. now destruct (tutureRoot f). }
  split.
  - intros Hgit. unfold run, initTuture, bind at 1, ifTutureSuiteExists, bind at 1,
      getFS, ret. cbn. rewrite Hno. cbn.
    unfold bind at 1. unfold isGitAvailable. rewrite Hgit. reflexivity.
  - intros Hgit Hdot Hyes Hanswer.
    unfold run, initTuture, bind at 1, ifTutureSuiteExists, bind at 1, getFS, ret.
    cbn. rewrite Hno. cbn.
    unfold bind at 1. unfold isGitAvailable. rewrite Hgit. cbn.
    unfold bind at 1. cbn. rewrite Hdot. cbn. rewrite Hyes.
    destruct (confirmInit e) as [[]|]; [congruence | reflexivity | reflexivity].
Qed.

(** X5: when [.tuture] is there and [tuture.yml] is not, [initTuture] gets
    as far as [fs.mkdirSync], which throws outside the [try]: no message of
    [errAndExit], no rollback, and the files stay as they are. *)
Theorem init_on_half_suite (e : Env) (options : Options) (f : FS) (d : SupportDir)
    (answers : Meta) :
  tutureRoot f = Some d ->
  tutureYml f = None ->
  gitInstalled e = true ->
  dotGit f = true ->
  answersOf e options = Some answers ->
  ioError e MkdirRoot = None ->
  exists message, run (initTuture e options) f = (Throw message, f).
Proof.
  intros Hroot Hyml Hgit Hdot Hans Hmk. destruct f as [yml root gi dg pc].
  cbn in Hroot, Hyml, Hdot. subst. unfold answersOf in Hans.
  eexists. unfold run, initTuture, promptMetaData, when, io, isGitAvailable, bind,
    ifTutureSuiteExists, getFS, ret, throw.
  cbn. rewrite Hgit. cbn.
  destruct (yes options); cbn.
  - rewrite Hmk. reflexivity.
  - rewrite Hans. cbn. rewrite Hmk. reflexivity.
Qed.

(** ** The ignore rule and the hook *)

(** X6: [appendGitignore] leaves a [.gitignore] that contains [.tuture]
    and begins with what the file held before; called again, it changes
    nothing. *)
Theorem appendGitignore_idempotent (e : Env) (w : World) :
  ioError e WriteGitignore = None ->
  ioError e ReadGitignore = None ->
  ioError e AppendGitignore = None ->
  exists w1 rules,
    appendGitignore e w = (Ret tt, w1) /\
    appendGitignore e w1 = (Ret tt, w1) /\
    gitignore (fs w1) = Some rules /\
    Js.includes ".tuture" rules = true /\
    forall content, gitignore (fs w) = Some content ->
                    String.prefix content rules = true.
Proof.
  intros Hw Hr Ha.
  assert (Hin : Js.includes ".tuture" (gitignoreAfter (gitignore (fs w))) = true).
  { unfold gitignoreAfter. destruct (gitignore (fs w)) as [content|]; [|reflexivity].
    destruct (Js.includes ".tuture" content) eqn:E; [exact E|].
    now apply includes_app_r, includes_app_r. }
  eexists _, _. split; [now apply appendGitignore_run|].
  split; [|split; [reflexivity|split; [exact Hin|]]].
  - rewrite appendGitignore_run by assumption. cbn [fs gitignore setGitignore].
    unfold gitignoreAfter at 1. rewrite Hin. reflexivity.
  - intros content Hc. rewrite Hc. unfold gitignoreAfter.
    destruct (Js.includes ".tuture" content).
    + rewrite <- (app_nil_r_s content) at 2. apply prefix_app_self.
    + apply prefix_app_self.
Qed.

(** X7: the path of the executable ends in [tuture], so that the hook
    [appendGitHook] leaves contains [tuture reload] and begins with what the
    hook held before; called again, it changes nothing. *)
Theorem appendGitHook_idempotent (e : Env) (w : World) (dir : string) :
  binTuture e = dir +:+ "tuture" ->
  ioError e WriteHook = None ->
  ioError e ReadHook = None ->
  ioError e AppendHook = None ->
  exists w1 hook,
    appendGitHook e w = (Ret tt, w1) /\
    appendGitHook e w1 = (Ret tt, w1) /\
    postCommit (fs w1) = Some hook /\
    Js.includes "tuture reload" hook = true /\
    forall before, postCommit (fs w) = Some before ->
                   String.prefix before hook = true.
Proof.
  intros Hbin Hw Hr Ha.
  assert (Hgen : Js.includes "tuture reload" (getGitHook e) = true).
  { unfold getGitHook. rewrite Hbin.
    assert (Hpath : exists dir', (if win32 e then replaceBackslashes (dir +:+ "tuture")
                                  else dir +:+ "tuture") = dir' +:+ "tuture").
    { destruct (win32 e); [|now exists dir].
      exists (replaceBackslashes dir). now rewrite replaceBackslashes_app. }
    destruct Hpath as [dir' ->].
    apply includes_app_r, includes_app_r. rewrite app_assoc_s.
    apply includes_app_r.
    change ("tuture" +:+ " reload" +:+ Js.nl) with ("tuture reload" +:+ Js.nl).
    apply includes_here. }
  assert (Hin : Js.includes "tuture reload" (hookAfter e (postCommit (fs w))) = true).
  { unfold hookAfter. destruct (postCommit (fs w)) as [before|]; [|exact Hgen].
    destruct (Js.includes "tuture reload" before) eqn:E; [exact E|].
    now apply includes_app_r. }
  eexists _, _. split; [now apply appendGitHook_run|].
  split; [|split; [reflexivity|split; [exact Hin|]]].
  - rewrite appendGitHook_run by assumption. cbn [fs postCommit setPostCommit].
    unfold hookAfter at 1. rewrite Hin. reflexivity.
  - intros before Hb. rewrite Hb. unfold hookAfter.
    destruct (Js.includes "tuture reload" before).
    + rewrite <- (app_nil_r_s before) at 2. apply prefix_app_self.
    + apply prefix_app_self.
Qed.

(** X8: where there is no post-commit hook, [removeGitHook] after
    [appendGitHook] leaves none. *)
Theorem hook_round_trip (e : Env) (w : World) :
  postCommit (fs w) = None ->
  ioError e WriteHook = None ->
  ioError e ReadHook = None ->
  ioError e RemoveHook = None ->
  exists w1,
    appendGitHook e w = (Ret tt, w1) /\
    postCommit (fs w1) = Some (getGitHook e) /\
    removeGitHook e w1 = (Ret tt, w).
Proof.
  intros Hnone Hw Hr Hd. destruct w as [[yml root gi dg pc] det].
  cbn in Hnone. subst pc.
  exists (mkWorld (mkFS yml root gi dg (Some (getGitHook e))) det).
  split; [|split; [reflexivity|]].
  - unfold appendGitHook, bind, getFS, io, setFS, ret. cbn. now rewrite Hw.
  - unfold removeGitHook, bind, getFS, io, setFS, ret. cbn.
    now rewrite Hr, String.eqb_refl, Hd.
Qed.

(** X9: on Windows the generated hook has no backslash in it. *)
Theorem windows_hook_has_no_backslash (e : Env) :
  win32 e = true ->
  ~ In "092"%char (list_ascii_of_string (getGitHook e)).
Proof.
  intros Hwin. unfold getGitHook. rewrite Hwin, !list_ascii_app.
  rewrite !in_app_iff. intros [H | [H | [H | [H | H]]]].
  - cbn in H. intuition discriminate.
  - cbn in H. intuition discriminate.
  - now apply replaceBackslashes_clean in H.
  - cbn in H. intuition discriminate.
  - cbn in H. intuition discriminate.
Qed.

(** ** Reloading and destroying *)

(** X10: the merge of [reloadTuture] keeps the commit hashes of the new
    steps, one for one and in their order, and every step it returns is one
    of the old or one of the new steps; an old step whose commit is no longer
    in the log is dropped. *)
Theorem reconcile_keeps_commit_sequence (oldSteps currentSteps : list Step) :
  map commit (reconcile oldSteps currentSteps) = map commit currentSteps /\
  (forall s, In s (reconcile oldSteps currentSteps) ->
             In s oldSteps \/ In s currentSteps) /\
  (forall s, ~ In (commit s) (map commit currentSteps) ->
             ~ In s (reconcile oldSteps currentSteps)).
Proof.
  split; [apply reconcile_commits|]. split.
  - intros s Hs. rewrite reconcile_map in Hs.
    apply List.in_map_iff in Hs as [c [<- Hc]]. unfold merged.
    destruct (lastMatch (commit c) oldSteps) as [s'|] eqn:E; cbn; [|now right].
    left. now apply lastMatch_Some in E as [E _].
  - intros s Hnot Hs. apply Hnot. rewrite <- (reconcile_commits oldSteps).
    now apply List.in_map.
Qed.


(** X12: when [reloadTuture] returns normally, [tuture.yml] and
    [tuture.json] hold the same tutorial, and its steps have the commit
    hashes read from the log, in that order. *)
Theorem reload_writes_both_files (e : Env) (f : FS) :
  (run (reloadTuture e) f).1 = Ret tt ->
  exists t,
    tutureYml (run (reloadTuture e) f).2 = Some (Yml t) /\
    tutureJson <$> tutureRoot (run (reloadTuture e) f).2 = Some (Some t) /\
    map commit (steps t) = commitsOf e.
Proof.
  rewrite reload_run. destruct f as [yml root gi dg pc]. cbn [tutureRoot tutureYml].
  destruct root as [d|]; [|discriminate].
  destruct yml as [y|]; [|discriminate].
  destruct (gitInstalled e); [|discriminate].
  destruct (ioError e ReadTutureYml); [discriminate|].
  destruct y as [t|m]; [|discriminate].
  destruct (freshSteps e) as [newSteps|m] eqn:Hfresh; [|discriminate].
  destruct (ioError e WriteTutureJson); [discriminate|]. cbn zeta.
  destruct (ioError e WriteTutureYml); [discriminate|].
  intros _. exists (reloaded t newSteps). cbn [fst snd].
  split; [|split].
  - now rewrite settleOne_yml.
  - now rewrite settleOne_json.
  - cbn. rewrite reconcile_commits. now apply freshSteps_commits.
Qed.

(** X13: when [reloadTuture] returns normally, every full diff was fetched
    and parsed, and the write of [diff.json] went through, [diff.json] has
    one entry for each step of the tutorial written, with the commit hash of
    that step, in the order of the steps. *)
Theorem reload_archive_matches_steps (e : Env) (f : FS) (diffs : list CommitDiff) :
  (run (reloadTuture e) f).1 = Ret tt ->
  fullDiffs e = Ok diffs ->
  ioError e WriteDiffJson = None ->
  exists t,
    tutureYml (run (reloadTuture e) f).2 = Some (Yml t) /\
    diffJson <$> tutureRoot (run (reloadTuture e) f).2 = Some (Some diffs) /\
    map diffCommit diffs = map commit (steps t).
Proof.
  intros Hret Hfull Hdiff.
  destruct (reload_writes_both_files e f Hret) as (t & Hyml & _ & Hcommits).
  exists t. split; [exact Hyml|]. split.
  - revert Hret. rewrite reload_run. destruct f as [yml root gi dg pc].
    cbn [tutureRoot tutureYml].
    destruct root as [d|]; [|discriminate].
    destruct yml as [y|]; [|discriminate].
    destruct (gitInstalled e); [|discriminate].
    destruct (ioError e ReadTutureYml); [discriminate|].
    destruct y as [t0|m]; [|discriminate].
    destruct (freshSteps e) as [newSteps|m]; [|discriminate].
    destruct (ioError e WriteTutureJson); [discriminate|]. cbn zeta.
    destruct (ioError e WriteTutureYml); [discriminate|].
    intros _. cbn [snd].
    now erewrite settleOne_written; [|exact Hfull|exact Hdiff|reflexivity].
  - rewrite Hcommits. now apply fullDiffs_commits.
Qed.


(** X15: [destroyTuture] without [--force], when the user does not
    confirm, stops with [Aborted!] and exit code 1 and changes no file. *)
Theorem destroy_declined_changes_nothing (e : Env) (options : Options) (f : FS)
    (d : SupportDir) (y : YmlFile) :
  tutureRoot f = Some d ->
  tutureYml f = Some y ->
  force options = false ->
  confirmDestroy e <> Some true ->
  run (destroyTuture e options) f = (Exit 1 "Aborted!", f).
Proof.
  intros Hroot Hyml Hforce Hanswer.
  unfold run, destroyTuture, bind at 1, ifTutureSuiteExists, bind at 1, getFS, ret.
  cbn. rewrite Hroot, Hyml. cbn. unfold bind at 1. cbn. rewrite Hforce.
  unfold bind. destruct (confirmDestroy e) as [[]|]; [congruence | reflexivity..].
Qed.

(** ** The renderer and the messages *)

(** X16: [startRenderer] copies the tutorial of [tuture.yml] to
    [tuture.json] before it starts the renderer: the copy is made also when
    the renderer cannot be run, which ends with exit code 1. *)
Theorem startRenderer_syncs_json (e : Env) (renderer : option string) (f : FS)
    (d : SupportDir) (t : Tuture) :
  tutureRoot f = Some d ->
  tutureYml f = Some (Yml t) ->
  ioError e ReadTutureYml = None ->
  ioError e WriteTutureJson = None ->
  run (startRenderer e renderer) f =
  (match renderer with
   | Some _ => Exit 1 "tuture-renderer is not available!"
   | None => Ret tt
   end,
   setTutureRoot (Some (mkSupportDir (Some t) (diffJson d))) f).
Proof.
  intros Hroot Hyml Hread Hjson. unfold run.
  rewrite startRenderer_run. cbn [fs detached]. rewrite Hroot, Hyml, Hread, Hjson.
  now destruct renderer.
Qed.

(** X17: on a [tuture.yml] that cannot be parsed, [reloadTuture] shows the
    error of the parser and exits with code 1, while [startRenderer], which
    has no [try] around the load, throws it; neither changes a file. *)
Theorem unreadable_yml_reload_and_up (e : Env) (renderer : option string) (f : FS)
    (d : SupportDir) (message : string) :
  tutureRoot f = Some d ->
  tutureYml f = Some (Unreadable message) ->
  gitInstalled e = true ->
  ioError e ReadTutureYml = None ->
  run (reloadTuture e) f = (Exit 1 (fatal message), f) /\
  run (startRenderer e renderer) f = (Throw message, f).
Proof.
  intros Hroot Hyml Hgit Hread. split.
  - now rewrite reload_run, Hroot, Hyml, Hgit, Hread.
  - unfold run. rewrite startRenderer_run. cbn [fs detached].
    now rewrite Hroot, Hyml, Hread.
Qed.

(** X18: [errAndExit] on an error of Git, [fatal: ] followed by a text,
    shows the text without the prefix and without the white space at its
    end, and exits with code 1. *)
Theorem errAndExit_strips_git_prefix (text : string) (w : World) :
  Js.trimEnd text <> "" ->
  @errAndExit unit ("fatal: " +:+ text) w = (Exit 1 (Js.trimEnd text), w).
Proof.
  intros Hne. unfold errAndExit, exit. f_equal. f_equal.
  unfold Js.trim.
  change ("fatal: " +:+ text) with (String "f" ("atal: " +:+ text)).
  rewrite trimStart_id by reflexivity.
  change (String "f" ("atal: " +:+ text)) with ("fatal: " +:+ text).
  rewrite trimEnd_app_keep by assumption.
  apply (replace_prefix "fatal: " "").
Qed.

(** ** The log and the summaries *)

(** X19: when [git log] succeeds and prints nothing but white space,
    [getGitLogs] returns one empty line, not the empty array, and [getSteps]
    asks for the summary of the commit with the empty hash: one step with an
    empty name and an empty hash, or the error of that call. *)
Theorem blank_log_gives_one_empty_step (e : Env) (w : World) :
  exitCode (git e ["log"; "--oneline"; "--no-merges"]) = Some 0%Z ->
  Js.trim (stdout (git e ["log"; "--oneline"; "--no-merges"])) = "" ->
  getGitLogs e = [""] /\
  (getSteps e w).1 =
    match getGitDiff e "" with
    | Ok d => Ret [mkStep "" "" None d]
    | Err m => Throw m
    end.
Proof.
  intros Hexit Hblank.
  assert (Hlogs : getGitLogs e = [""]).
  { unfold getGitLogs, runGitCommand. now rewrite Hexit, Hblank. }
  split; [exact Hlogs|].
  rewrite getSteps_run. unfold freshSteps. rewrite Hlogs. cbn.
  unfold stepOf. cbn. now destruct (getGitDiff e "").
Qed.

(** X20: whatever Git prints, the commit hash of a step has at most seven
    characters. *)
Theorem step_commit_at_most_seven (e : Env) (w : World) (newSteps : list Step) :
  (getSteps e w).1 = Ret newSteps ->
  Forall (fun s => String.length (commit s) <= 7) newSteps.
Proof.
  rewrite getSteps_run. cbn [fst].
  destruct (freshSteps e) as [fresh|] eqn:Hfresh; [|discriminate].
  intros [= <-]. apply freshSteps_commits in Hfresh.
  apply List.Forall_forall. intros s Hs.
  assert (Hin : In (commit s) (commitsOf e)) by (rewrite <- Hfresh; now apply List.in_map).
  unfold commitsOf in Hin. apply List.in_map_iff in Hin as [log [<- _]].
  apply substring_length_le.
Qed.

(** X21: whatever the output of [git show --name-only] looks like, no
    entry [getGitDiff] returns has a base name that matches an ignore
    pattern, and none has an explanation or a collapse flag. *)
Theorem getGitDiff_never_lists_ignored (e : Env) (c : string) (ds : list FileDiff) :
  getGitDiff e c = Ok ds ->
  Forall (fun d =>
            existsb (fun pattern => minimatch e (Js.basename (file d)) pattern)
                    (ignoreFiles e) = false /\
            file_explain d = None /\ collapse d = None)
         ds.
Proof.
  unfold getGitDiff. destruct (runGitCommand e _) as [output|]; [|discriminate].
  intros [= <-]. unfold changedFilesOf. apply List.Forall_forall. intros d Hd.
  apply List.in_map_iff in Hd as [f [<- Hf]].
  apply List.filter_In in Hf as [_ Hf]. apply negb_true_iff in Hf.
  repeat split. exact Hf.
Qed.

(** ** Git itself *)

(** X23: outside a repository, when the user agrees (or with [--yes]) and
    [git init] fails, [initTuture] throws the error of Git before it has
    created anything: no file is changed and there is nothing to roll
    back. *)
Theorem init_git_init_failure (e : Env) (options : Options) (f : FS) (message : string) :
  tutureRoot f = None \/ tutureYml f = None ->
  gitInstalled e = true ->
  dotGit f = false ->
  yes options = true \/ confirmInit e = Some true ->
  runGitCommand e ["init"] = Err message ->
  run (initTuture e options) f = (Throw message, f).
Proof.
  intros Hsuite Hgit Hdot Hyes Hinit.
  assert (Hno : bool_decide (is_Some (tutureRoot f)) && bool_decide (is_Some (tutureYml f))
                = false).
  { destruct Hsuite as [-> | ->]; [reflexivity|]. now destruct (tutureRoot f). }
  unfold run, initTuture, bind at 1, ifTutureSuiteExists, bind at 1, getFS, ret.
  cbn. rewrite Hno. cbn.
  unfold bind at 1. unfold isGitAvailable. rewrite Hgit. cbn.
  unfold bind at 1. cbn. rewrite Hdot. cbn.
  unfold initGit, await, bind, throw, ret.
  destruct (yes options); cbn.
  - now rewrite Hinit.
  - destruct Hyes as [Hy | Hc]; [discriminate|]. rewrite Hc. cbn. now rewrite Hinit.
Qed.

(** X24: in the archive [storeDiff] writes, every hunk is marked
    [isPlain: false], whatever the parser of the diff returned. *)
Theorem archive_hunks_not_plain (e : Env) (diffs : list CommitDiff) :
  fullDiffs e = Ok diffs ->
  Forall (fun d =>
            Forall (fun df => Forall (fun h => isPlain h = Some false) (hunks df))
                   (diffFiles d))
         diffs.
Proof.
  unfold fullDiffs. intros H. apply promiseAll_inv in H.
  induction H as [|c d cs diffs Hd _ IH]; constructor; [|exact IH].
  unfold fetchFullDiff in Hd. destruct (runGitCommand e ["show"; c]); [|discriminate].
  unfold parseDiff in Hd. destruct (parse e _) as [files|]; [|discriminate].
  injection Hd as <-. cbn [diffFiles].
  apply List.Forall_forall. intros df Hdf.
  apply List.in_map_iff in Hdf as [df0 [<- _]]. cbn [hunks].
  apply List.Forall_forall. intros h Hh.
  now apply List.in_map_iff in Hh as [h0 [<- _]].
Qed.


(** ** The further properties on the sample repository *)

(** X1 on the sample suite. *)
Lemma init_twice_is_noop_witness :
  tutureRoot Sample.initialized = Some (mkSupportDir (Some Sample.oldTutorial) None) /\
  run (initTuture Sample.env (mkOptions false false)) Sample.initialized =
    (Exit 0 "Tuture has already been initialized!", Sample.initialized).
Proof.
  split; [reflexivity|].
  apply (init_twice_is_noop Sample.env (mkOptions false false) Sample.initialized
           (mkSupportDir (Some Sample.oldTutorial) None) (Yml Sample.oldTutorial));
    reflexivity.
Defined.

(** X2 on a repository that has ignore rules and a hook of its own. *)
Lemma init_creates_suite_witness :
  (getSteps Sample.env (mkWorld Sample.customized [])).1 = Ret Sample.fresh /\
  run (initTuture Sample.env (mkOptions true false)) Sample.customized =
  (Ret tt,
   settleOne (archive Sample.env)
     (mkFS (Some (Yml (mkTuture defaultValues Sample.fresh)))
           (Some (mkSupportDir (Some (mkTuture defaultValues Sample.fresh)) None))
           (Some (gitignoreAfter (gitignore Sample.customized))) true
           (Some (hookAfter Sample.env (postCommit Sample.customized))))).
Proof.
  split; [reflexivity|].
  apply (init_creates_suite Sample.env (mkOptions true false) Sample.customized
           defaultValues Sample.fresh); reflexivity.
Defined.

(** X3 on the bare repository. *)
Lemma destroy_undoes_init_witness :
  run (destroyTuture Sample.env (mkOptions false true))
      (run (initTuture Sample.env (mkOptions true false)) Sample.bare).2 =
  (Ret tt, setGitignore (Some (gitignoreAfter (gitignore Sample.bare))) Sample.bare).
Proof.
  apply (destroy_undoes_init Sample.env (mkOptions true false) (mkOptions false true)
           Sample.bare defaultValues Sample.fresh); try reflexivity.
  left; reflexivity.
Defined.

(** X4 outside a repository, with a user who answers no. *)
Lemma init_aborts_untouched_witness :
  confirmInit Sample.decliningEnv <> Some true /\
  run (initTuture Sample.decliningEnv (mkOptions false false)) Sample.outside =
    (Exit 1 "Aborted!", Sample.outside).
Proof.
  split; [discriminate|].
  apply (proj2 (init_aborts_untouched Sample.decliningEnv (mkOptions false false)
                  Sample.outside (or_introl eq_refl)));
    try reflexivity.
  discriminate.
Defined.

(** X5 on a support directory without [tuture.yml]. *)
Lemma init_on_half_suite_witness :
  tutureYml Sample.half = None /\
  exists message,
    run (initTuture Sample.env (mkOptions true false)) Sample.half
    = (Throw message, Sample.half).
Proof.
  split; [reflexivity|].
  apply (init_on_half_suite Sample.env (mkOptions true false) Sample.half
           (mkSupportDir None None) defaultValues); reflexivity.
Defined.

(** X6 on a [.gitignore] with a rule of the user. *)
Lemma appendGitignore_idempotent_witness :
  gitignore Sample.customized = Some "node_modules" /\
  exists w1 rules,
    appendGitignore Sample.env (mkWorld Sample.customized []) = (Ret tt, w1) /\
    appendGitignore Sample.env w1 = (Ret tt, w1) /\
    gitignore (fs w1) = Some rules /\
    Js.includes ".tuture" rules = true /\
    forall content, gitignore (fs (mkWorld Sample.customized [])) = Some content ->
                    String.prefix content rules = true.
Proof.
  split; [reflexivity|].
  apply (appendGitignore_idempotent Sample.env (mkWorld Sample.customized []));
    reflexivity.
Defined.

(** X7 on a hook of the user. *)
Lemma appendGitHook_idempotent_witness :
  binTuture Sample.env = "/usr/local/lib/node_modules/tuture/bin/" +:+ "tuture" /\
  exists w1 hook,
    appendGitHook Sample.env (mkWorld Sample.customized []) = (Ret tt, w1) /\
    appendGitHook Sample.env w1 = (Ret tt, w1) /\
    postCommit (fs w1) = Some hook /\
    Js.includes "tuture reload" hook = true /\
    forall before, postCommit (fs (mkWorld Sample.customized [])) = Some before ->
                   String.prefix before hook = true.
Proof.
  split; [reflexivity|].
  apply (appendGitHook_idempotent Sample.env (mkWorld Sample.customized [])
           "/usr/local/lib/node_modules/tuture/bin/"); reflexivity.
Defined.

(** X8 on the bare repository. *)
Lemma hook_round_trip_witness :
  postCommit Sample.bare = None /\
  exists w1,
    appendGitHook Sample.env (mkWorld Sample.bare []) = (Ret tt, w1) /\
    postCommit (fs w1) = Some (getGitHook Sample.env) /\
    removeGitHook Sample.env w1 = (Ret tt, mkWorld Sample.bare []).
Proof.
  split; [reflexivity|].
  apply (hook_round_trip Sample.env (mkWorld Sample.bare [])); reflexivity.
Defined.

(** X9 on a Windows path. *)
Lemma windows_hook_has_no_backslash_witness :
  In "092"%char (list_ascii_of_string (binTuture Sample.windowsEnv)) /\
  ~ In "092"%char (list_ascii_of_string (getGitHook Sample.windowsEnv)).
Proof.
  split; [cbn; tauto|].
  apply (windows_hook_has_no_backslash Sample.windowsEnv). reflexivity.
Defined.

(** X12 on the sample suite. *)
Lemma reload_writes_both_files_witness :
  (run (reloadTuture Sample.env) Sample.initialized).1 = Ret tt /\
  exists t,
    tutureYml (run (reloadTuture Sample.env) Sample.initialized).2 = Some (Yml t) /\
    tutureJson <$> tutureRoot (run (reloadTuture Sample.env) Sample.initialized).2
      = Some (Some t) /\
    map commit (steps t) = commitsOf Sample.env.
Proof.
  split; [reflexivity|].
  apply (reload_writes_both_files Sample.env Sample.initialized). reflexivity.
Defined.

(** X13 on the sample suite. *)
Lemma reload_archive_matches_steps_witness :
  fullDiffs Sample.env = Ok Sample.archived /\
  ioError Sample.env WriteDiffJson = None /\
  exists t,
    tutureYml (run (reloadTuture Sample.env) Sample.initialized).2 = Some (Yml t) /\
    diffJson <$> tutureRoot (run (reloadTuture Sample.env) Sample.initialized).2
      = Some (Some Sample.archived) /\
    map diffCommit Sample.archived = map commit (steps t).
Proof.
  split; [reflexivity|]. split; [reflexivity|].
  apply (reload_archive_matches_steps Sample.env Sample.initialized); reflexivity.
Defined.


(** X15 with a user who answers no. *)
Lemma destroy_declined_changes_nothing_witness :
  confirmDestroy Sample.decliningEnv <> Some true /\
  run (destroyTuture Sample.decliningEnv (mkOptions false false)) Sample.initialized =
    (Exit 1 "Aborted!", Sample.initialized).
Proof.
  split; [discriminate|].
  apply (destroy_declined_changes_nothing Sample.decliningEnv (mkOptions false false)
           Sample.initialized (mkSupportDir (Some Sample.oldTutorial) None)
           (Yml Sample.oldTutorial)); try reflexivity.
  discriminate.
Defined.

(** X16 when the renderer is not installed. *)
Lemma startRenderer_syncs_json_witness :
  tutureYml Sample.initialized = Some (Yml Sample.oldTutorial) /\
  run (startRenderer Sample.env (Some "spawnSync /bin/sh ENOENT")) Sample.initialized =
  (Exit 1 "tuture-renderer is not available!",
   setTutureRoot (Some (mkSupportDir (Some Sample.oldTutorial) None)) Sample.initialized).
Proof.
  split; [reflexivity|].
  apply (startRenderer_syncs_json Sample.env (Some "spawnSync /bin/sh ENOENT")
           Sample.initialized (mkSupportDir (Some Sample.oldTutorial) None)
           Sample.oldTutorial); reflexivity.
Defined.

(** X17 on a [tuture.yml] that does not parse. *)
Lemma unreadable_yml_reload_and_up_witness :
  tutureYml Sample.malformed = Some (Unreadable "bad indentation of a mapping entry") /\
  run (reloadTuture Sample.env) Sample.malformed =
    (Exit 1 (fatal "bad indentation of a mapping entry"), Sample.malformed) /\
  run (startRenderer Sample.env None) Sample.malformed =
    (Throw "bad indentation of a mapping entry", Sample.malformed).
Proof.
  split; [reflexivity|].
  apply (unreadable_yml_reload_and_up Sample.env None Sample.malformed
           (mkSupportDir (Some Sample.oldTutorial) None)
           "bad indentation of a mapping entry"); reflexivity.
Defined.

(** X18 on an error of [git show]. *)
Lemma errAndExit_strips_git_prefix_witness :
  Js.trimEnd ("bad object a1a1a1a" +:+ Js.nl) = "bad object a1a1a1a" /\
  @errAndExit unit ("fatal: " +:+ "bad object a1a1a1a" +:+ Js.nl)
              (mkWorld Sample.bare [])
  = (Exit 1 (Js.trimEnd ("bad object a1a1a1a" +:+ Js.nl)), mkWorld Sample.bare []).
Proof.
  split; [reflexivity|].
  apply (errAndExit_strips_git_prefix ("bad object a1a1a1a" +:+ Js.nl)
           (mkWorld Sample.bare [])).
  discriminate.
Defined.

(** X19 on a Git that prints nothing. *)
Lemma blank_log_gives_one_empty_step_witness :
  stdout (git Sample.silentEnv ["log"; "--oneline"; "--no-merges"]) = "" /\
  getGitLogs Sample.silentEnv = [""] /\
  (getSteps Sample.silentEnv (mkWorld Sample.bare [])).1 =
    match getGitDiff Sample.silentEnv "" with
    | Ok d => Ret [mkStep "" "" None d]
    | Err m => Throw m
    end.
Proof.
  split; [reflexivity|].
  apply (blank_log_gives_one_empty_step Sample.silentEnv (mkWorld Sample.bare []));
    reflexivity.
Defined.

(** X20 on the sample repository. *)
Lemma step_commit_at_most_seven_witness :
  (getSteps Sample.env (mkWorld Sample.bare [])).1 = Ret Sample.fresh /\
  Forall (fun s => String.length (commit s) <= 7) Sample.fresh.
Proof.
  split; [reflexivity|].
  apply (step_commit_at_most_seven Sample.env (mkWorld Sample.bare []) Sample.fresh).
  reflexivity.
Defined.

(** X21 on the sample commit. *)
Lemma getGitDiff_never_lists_ignored_witness :
  getGitDiff Sample.env "a1a1a1a" = Ok [mkFileDiff "src/index.js" None None] /\
  Forall (fun d =>
            existsb (fun pattern => minimatch Sample.env (Js.basename (file d)) pattern)
                    (ignoreFiles Sample.env) = false /\
            file_explain d = None /\ collapse d = None)
         [mkFileDiff "src/index.js" None None].
Proof.
  split; [reflexivity|].
  apply (getGitDiff_never_lists_ignored Sample.env "a1a1a1a"). reflexivity.
Defined.

(** X22 on a Git that cannot read the summaries. *)
Lemma failed_summary_aborts_reload_witness :
  getGitDiff Sample.noSummaryEnv "a1a1a1a" = Err "fatal: unable to read tree" /\
  exists m',
    (run (reloadTuture Sample.noSummaryEnv) Sample.initialized).1 = Throw m' /\
    tutureYml (run (reloadTuture Sample.noSummaryEnv) Sample.initialized).2
      = tutureYml Sample.initialized /\
    tutureJson <$> tutureRoot (run (reloadTuture Sample.noSummaryEnv) Sample.initialized).2
      = Some (tutureJson (mkSupportDir (Some Sample.oldTutorial) None)).
Proof.
  split; [reflexivity|].
  apply (failed_summary_aborts_reload Sample.noSummaryEnv Sample.initialized
           (mkSupportDir (Some Sample.oldTutorial) None) Sample.oldTutorial
           "a1a1a1a" "fatal: unable to read tree"); try reflexivity.
  left; reflexivity.
Defined.

(** X23 on a host whose Git fails. *)
Lemma init_git_init_failure_witness :
  runGitCommand Sample.failingEnv ["init"]
    = Err "fatal: cannot mkdir .git: Permission denied" /\
  run (initTuture Sample.failingEnv (mkOptions true false)) Sample.outside =
    (Throw "fatal: cannot mkdir .git: Permission denied", Sample.outside).
Proof.
  split; [reflexivity|].
  apply (init_git_init_failure Sample.failingEnv (mkOptions true false) Sample.outside
           "fatal: cannot mkdir .git: Permission denied"); try reflexivity.
  - left; reflexivity.
  - left; reflexivity.
Defined.

(** X24 with a parser that leaves the mark out. *)
Lemma archive_hunks_not_plain_witness :
  parse Sample.env Sample.patch
    = Ok [mkDiffFile "src/index.js" [mkHunk "@@ -0,0 +1 @@" None]] /\
  exists diffs,
    fullDiffs Sample.env = Ok diffs /\
    length diffs = 2 /\
    Forall (fun d =>
              Forall (fun df => Forall (fun h => isPlain h = Some false) (hunks df))
                     (diffFiles d))
           diffs.
Proof.
  split; [reflexivity|].
  eexists. split; [reflexivity|]. split; [reflexivity|].
  apply (archive_hunks_not_plain Sample.env). reflexivity.
Defined.

